(** * Civic report lifecycle: a shallow embedding of the Express handlers

    The development follows the JavaScript sources of the backend:
    - the [User] and [Report] Mongoose schemas with the instance methods
      [updateBadge] and [addPoints];
    - the report controller ([createReport], [acknowledgeReport],
      [resolveReport], [deleteReport], [upvoteReport], [mlWebhook],
      [updateReportStatusResolve] and the listing queries);
    - the admin controller ([getAllReports], [updateReportAcknowledge],
      [getReportLocations]).

    A MongoDB collection is a finite map from the document [_id] to the
    document.  A handler is a function from the request and the current
    state to an HTTP response and the next state; an exception caught by the
    handler's [try]/[catch] is the 500 response of that [catch] block.
    Requests are handled one after the other.  An id in a request is a
    string; a lookup casts it to an [ObjectId], whose spelling is the key
    of the document.

    A finite JavaScript number is a rational; the string built-ins of the
    runtime ([ToNumber], [parseFloat], [parseInt]) and the store's
    geospatial operators are parameters of the handlers that use them.
    [populate] in a listing only decorates the listed documents and is not
    modelled there. *)

From Stdlib Require Import ZArith NArith QArith Ascii String List.
From stdpp Require Import base option gmap strings list sorting.

Local Open Scope Z_scope.
Local Open Scope string_scope.

(** ** Reputation: the [User] schema *)

Inductive Badge := Bronze | Silver | Gold | Platinum.

#[global] Instance Badge_eq_dec : EqDecision Badge.
Proof. solve_decision. Defined.

(** The reputation-relevant fields of [userSchema].  [points] and
    [monthlyPoints] are declared [min: 0], hence naturals. *)
Record User := mkUser {
  name : string;
  points : N;
  monthlyPoints : N;
  badge : Badge;
  fcmToken : option string
}.

Definition set_points (p : N) (u : User) : User :=
  mkUser (name u) p (monthlyPoints u) (badge u) (fcmToken u).
Definition set_monthlyPoints (p : N) (u : User) : User :=
  mkUser (name u) (points u) p (badge u) (fcmToken u).
Definition set_badge (b : Badge) (u : User) : User :=
  mkUser (name u) (points u) (monthlyPoints u) b (fcmToken u).

(** The badge chosen by the [if]/[else if] chain of [updateBadge]. *)
Definition newBadge (p : N) : Badge :=
  if (1000 <=? p)%N then Platinum
  else if (500 <=? p)%N then Gold
  else if (200 <=? p)%N then Silver
  else Bronze.

(** [userSchema.methods.updateBadge]: the boolean says whether the badge
    changed. *)
Definition updateBadge (u : User) : User * bool :=
  let b := newBadge (points u) in
  if decide (badge u = b) then (u, false) else (set_badge b u, true).

(** [userSchema.methods.addPoints] *)
Definition addPoints (n : N) (u : User) : User :=
  let u1 := set_points (points u + n)%N u in
  let u2 := set_monthlyPoints (monthlyPoints u1 + n)%N u1 in
  fst (updateBadge u2).


(** ** JavaScript values and numbers *)

(** A JavaScript number: a finite double (a rational), [NaN] or an infinity. *)
Inductive Number := Finite (q : Q) | NaN | PosInfinity | NegInfinity.

(** The relational operator [<] on numbers; any comparison with [NaN] is
    false.  [a > b] is [num_lt b a]. *)
Definition num_lt (a b : Number) : bool :=
  match a, b with
  | NaN, _ | _, NaN => false
  | Finite x, Finite y => if Qlt_le_dec x y then true else false
  | NegInfinity, NegInfinity => false
  | NegInfinity, _ => true
  | _, NegInfinity => false
  | PosInfinity, _ => false
  | Finite _, PosInfinity => true
  end.

(** A field of [req.body]: JSON bodies carry numbers, form bodies strings. *)
Inductive JsVal := JUndefined | JNull | JNum (q : Q) | JStr (s : string).

(** Truthiness, as used by [!v] and [v || d]. *)
Definition truthy (v : JsVal) : bool :=
  match v with
  | JUndefined | JNull => false
  | JNum q => negb (Qeq_bool q 0)
  | JStr s => negb (bool_decide (s = ""))
  end.

(** [v || d] on an optional string field. *)
Definition or_else (v : option string) (d : string) : string :=
  match v with
  | Some s => if decide (s = "") then d else s
  | None => d
  end.

(** Truthiness of an optional string (query parameters, webhook fields). *)
Definition present (v : option string) : bool :=
  match v with
  | Some s => negb (bool_decide (s = ""))
  | None => false
  end.

(** The built-ins of the JavaScript runtime on strings, and the evaluation
    of a geospatial operator by the document store, are taken as given. *)
Inductive GeoQuery :=
| Near (lng lat : Number) (maxDistance : option Z)
| WithinBox (swLng swLat neLng neLat : Number).

Class Runtime := {
  (** [ToNumber] on a string, as applied by [<] and [>] *)
  StringToNumber : string → Number;
  (** [parseFloat] on a string *)
  parseFloatStr : string → Number;
  (** [parseInt] on a string; [None] is [NaN] *)
  parseIntStr : string → option Z;
  (** [None]: the store rejects the operator; [Some p]: the coordinates
      selected *)
  geoEval : GeoQuery → option (list Number → bool)
}.

(** A result or a thrown exception. *)
Inductive Try (A : Type) := Return (a : A) | Throw.
Arguments Return {A} a.
Arguments Throw {A}.

(** ** The [Report] schema *)

Inductive Status := SUBMITTED | ACKNOWLEDGED | RESOLVED | DELETED.

#[global] Instance Status_eq_dec : EqDecision Status.
Proof. solve_decision. Defined.

Definition status_name (s : Status) : string :=
  match s with
  | SUBMITTED => "SUBMITTED"
  | ACKNOWLEDGED => "ACKNOWLEDGED"
  | RESOLVED => "RESOLVED"
  | DELETED => "DELETED"
  end.

(** The [enum] of [department]. *)
Definition departments : list string :=
  ["General"; "Roads"; "Water"; "Electricity"; "Sanitation"; "Health";
   "Environment"; "Safety"; "Processing"; "Other"].

(** A report document; its [_id] is its key in the collection.
    [coordinates] is [location.coordinates], in the order longitude,
    latitude.  Of the two Mongoose timestamps only [createdAt] is read by
    the handlers. *)
Record Report := mkReport {
  title : string;
  description : string;
  coordinates : list Number;
  address : option string;
  image_url : option string;
  voice_url : option string;
  department : string;
  reportStatus : Status;
  severity : string;
  userId : string;
  upvotes : Z;
  upvotedBy : list string;
  mlClassified : bool;
  mlSeverity : option string;
  mlDepartment : option string;
  mlTitle : option string;
  mlConflicts : option string;
  mlConfidence : option (Q * Q);
  isAcknowledged : bool;
  acknowledgedAt : option Z;
  acknowledgedBy : option string;
  createdAt : Z
}.

(** [report.reportStatus = s] *)
Definition set_reportStatus (s : Status) (r : Report) : Report :=
  mkReport (title r) (description r) (coordinates r) (address r)
    (image_url r) (voice_url r) (department r) s (severity r) (userId r)
    (upvotes r) (upvotedBy r) (mlClassified r) (mlSeverity r)
    (mlDepartment r) (mlTitle r) (mlConflicts r) (mlConfidence r)
    (isAcknowledged r) (acknowledgedAt r) (acknowledgedBy r) (createdAt r).

(** [report.upvotes = n; report.upvotedBy = l] *)
Definition set_upvotes (n : Z) (l : list string) (r : Report) : Report :=
  mkReport (title r) (description r) (coordinates r) (address r)
    (image_url r) (voice_url r) (department r) (reportStatus r) (severity r)
    (userId r) n l (mlClassified r) (mlSeverity r)
    (mlDepartment r) (mlTitle r) (mlConflicts r) (mlConfidence r)
    (isAcknowledged r) (acknowledgedAt r) (acknowledgedBy r) (createdAt r).

(** The update document of [updateReportAcknowledge]. *)
Definition set_acknowledged (at_ : Z) (by_ : string) (r : Report) : Report :=
  mkReport (title r) (description r) (coordinates r) (address r)
    (image_url r) (voice_url r) (department r) ACKNOWLEDGED (severity r)
    (userId r) (upvotes r) (upvotedBy r) (mlClassified r) (mlSeverity r)
    (mlDepartment r) (mlTitle r) (mlConflicts r) (mlConfidence r)
    true (Some at_) (Some by_) (createdAt r).

(** ** Classification webhook payload *)

Record Classification := mkClassification {
  cls_severity : string;
  cls_department : string;
  cls_title : option string;
  cls_confidence : Q * Q;
  cls_conflicts : option string
}.

Record WebhookBody := mkWebhookBody {
  wb_reportId : string;
  wb_classification : option Classification
}.

(** [classification.title && classification.title !== 'No title'] *)
Definition valid_title (c : Classification) : bool :=
  match cls_title c with
  | Some t => negb (bool_decide (t = "")) && negb (bool_decide (t = "No title"))
  | None => false
  end.

(** [{ $set: updateData }] applied to a document. *)
Definition apply_updateData (c : Classification) (r : Report) : Report :=
  mkReport
    (if valid_title c then default (title r) (cls_title c) else title r)
    (description r) (coordinates r) (address r)
    (image_url r) (voice_url r)
    (cls_department c)
    (reportStatus r)
    (cls_severity c)
    (userId r) (upvotes r) (upvotedBy r)
    true
    (Some (cls_severity c))
    (Some (cls_department c))
    (if valid_title c then cls_title c else mlTitle r)
    (if present (cls_conflicts c) then cls_conflicts c else mlConflicts r)
    (Some (cls_confidence c))
    (isAcknowledged r) (acknowledgedAt r) (acknowledgedBy r) (createdAt r).

(** ** State, events, responses *)

(** A job on [ml_classification_queue]. *)
Record Job := mkJob {
  job_reportId : string;
  job_description : string;
  job_imageUrl : option string;
  job_title : string;
  job_timestamp : Z
}.

(** A [report-status-update] event emitted to the room [report-<id>]. *)
Record Event := mkEvent {
  ev_reportId : string;
  ev_status : string;
  ev_updatedReport : option Report;
  ev_message : string
}.

Record State := mkState {
  reports : gmap string Report;
  users : gmap string User;
  queue : list Job;
  emitted : list Event
}.

Definition set_reports (m : gmap string Report) (st : State) : State :=
  mkState m (users st) (queue st) (emitted st).
Definition set_users (m : gmap string User) (st : State) : State :=
  mkState (reports st) m (queue st) (emitted st).
Definition push_job (j : Job) (st : State) : State :=
  mkState (reports st) (users st) (j :: queue st) (emitted st).
Definition emit (e : Event) (st : State) : State :=
  mkState (reports st) (users st) (queue st) (emitted st ++ [e]).

(** An entry of [locations] in [getReportLocations]. *)
Record Location := mkLocation {
  loc_lat : option Number;
  loc_lng : option Number;
  loc_department : string;
  loc_severity : string;
  loc_title : string
}.

(** The JSON body of a response: the fields the handlers set, without the
    pagination counters. *)
Inductive Body :=
| JError (error : string)
| JMessage (message : string)
| JReport (message : string) (report : Report)
| JReports (message : string) (found : list (string * Report))
| JUpvotes (message : string) (count : Z)
| JWebhook (message : string) (updatedReport : option Report)
| JLocations (locations : list Location).

Record Response := mkResponse { status : nat; body : Body }.

(** The error taxonomy of the specification as HTTP status codes. *)
Definition NotFound (r : Response) : Prop := status r = 404%nat.
Definition InvalidTransition (r : Response) : Prop := status r = 400%nat.
Definition ValidationError (r : Response) : Prop := status r = 400%nat.
Definition Forbidden (r : Response) : Prop := status r = 403%nat.
Definition is_success (r : Response) : bool :=
  bool_decide (200 ≤ status r < 300)%nat.
Definition is_client_error (r : Response) : bool :=
  bool_decide (400 ≤ status r < 500)%nat.

(** ** The collection operations of Mongoose used by the handlers *)

Definition is_hex (c : ascii) : bool :=
  let n := nat_of_ascii c in
  ((48 <=? n) && (n <=? 57) || (65 <=? n) && (n <=? 70)
   || (97 <=? n) && (n <=? 102))%nat.

(** [/^[0-9a-fA-F]{24}$/], the strings that cast to an [ObjectId]. *)
Definition isObjectId (s : string) : bool :=
  bool_decide (String.length s = 24%nat) && forallb is_hex (list_ascii_of_string s).

(** The cast of a hexadecimal digit to the spelling of [ObjectId.toString]. *)
Definition lower_hex (c : ascii) : ascii :=
  let n := nat_of_ascii c in
  if ((65 <=? n) && (n <=? 70))%nat then ascii_of_nat (n + 32) else c.

(** The [ObjectId] a string is cast to, written as the driver writes it:
    the same 24 digits in lower case.  The keys of a collection are in
    this spelling, so two spellings of one id name one document. *)
Definition ObjectId (s : string) : string :=
  string_of_list_ascii (map lower_hex (list_ascii_of_string s)).

(** [Model.findById]: the string is cast to an [ObjectId]; one that is no
    [ObjectId] raises a [CastError]. *)
Definition findById {A} (m : gmap string A) (id : string) : Try (option A) :=
  if isObjectId id then Return (m !! ObjectId id) else Throw.

(** [Report.findByIdAndUpdate(id, update, { new: true })] *)
Definition findByIdAndUpdate (f : Report → Report) (id : string) (st : State)
  : Try (option Report * State) :=
  if isObjectId id then
    match reports st !! ObjectId id with
    | Some r =>
        Return (Some (f r), set_reports (<[ObjectId id := f r]> (reports st)) st)
    | None => Return (None, st)
    end
  else Throw.

(** [report.save()] of a document read from the collection, under its
    [_id]. *)
Definition save_report (id : string) (r : Report) (st : State) : State :=
  set_reports (<[id := r]> (reports st)) st.

(** [user.save()] *)
Definition save_user (id : string) (u : User) (st : State) : State :=
  set_users (<[id := u]> (users st)) st.

(** ** Requests and their environment *)

(** What a handler reads besides the request and the collections: the
    clock, the [_id] the store gives the next document,
    [DISABLE_ML_PROCESSING], whether Redis accepts the push, and whether
    [global.io] is set.  The notary and push-notification calls sit in
    their own [try]/[catch], change neither collection nor response, and
    are left out. *)
Record Env := mkEnv {
  now : Z;
  newObjectId : string;
  mlDisabled : bool;
  redisUp : bool;
  io : bool
}.

(** An uploaded file of [req.files] and what Cloudinary answered. *)
Inductive Upload := NoFile | UploadFailed | Uploaded (secure_url : string).

Definition upload_url (u : Upload) : option string :=
  match u with
  | Uploaded url => Some url
  | _ => None
  end.

(** [req.body], [req.user.userId] and [req.files] of [createReport]. *)
Record CreateReq := mkCreateReq {
  cr_title : option string;
  cr_description : option string;
  cr_category : option string;
  cr_latitude : JsVal;
  cr_longitude : JsVal;
  cr_address : option string;
  cr_userId : string;
  cr_image : Upload;
  cr_voice : Upload
}.

(** [req.query] of the listing handlers. *)
Record ListQuery := mkListQuery {
  q_status : option string;
  q_department : option string;
  q_severity : option string;
  q_page : option string;
  q_limit : option string
}.

(** ** Queries on the report collection *)

Inductive StatusCond := StatusNe (s : string) | StatusIs (s : string).

(** A filter document of [Report.find]. *)
Record Filter := mkFilter {
  f_reportStatus : option StatusCond;
  f_department : option string;
  f_severity : option string;
  f_userId : option string;
  f_location : option (list Number → bool)
}.

(** [{ reportStatus: { $ne: 'DELETED' } }] *)
Definition notDeleted : Filter :=
  mkFilter (Some (StatusNe "DELETED")) None None None None.

Definition opt_is (c : option string) (v : string) : bool :=
  match c with
  | Some s => bool_decide (v = s)
  | None => true
  end.

Definition matches (f : Filter) (r : Report) : bool :=
  match f_reportStatus f with
  | Some (StatusNe s) => negb (bool_decide (status_name (reportStatus r) = s))
  | Some (StatusIs s) => bool_decide (status_name (reportStatus r) = s)
  | None => true
  end
  && opt_is (f_department f) (department r)
  && opt_is (f_severity f) (severity r)
  && opt_is (f_userId f) (userId r)
  && match f_location f with
     | Some p => p (coordinates r)
     | None => true
     end.

(** [Report.find(filter)]: the matching documents with their [_id]. *)
Definition find (f : Filter) (st : State) : list (string * Report) :=
  List.filter (λ d, matches f (snd d)) (map_to_list (reports st)).

(** [.sort({ createdAt: -1 })].  Among reports of equal [createdAt] the
    store fixes no order; the order the sort below gives them is not used
    by any property. *)
Definition newest_first (a b : string * Report) : Prop :=
  (createdAt (snd b) ≤ createdAt (snd a))%Z.

#[global] Instance newest_first_dec : RelDecision newest_first.
Proof. intros a b. unfold newest_first. apply _. Defined.

(** [.sort({ upvotes: -1, createdAt: -1 })] *)
Definition most_upvoted_first (a b : string * Report) : Prop :=
  (upvotes (snd b) < upvotes (snd a))%Z
  ∨ (upvotes (snd b) = upvotes (snd a)
     ∧ (createdAt (snd b) ≤ createdAt (snd a))%Z).

#[global] Instance most_upvoted_first_dec : RelDecision most_upvoted_first.
Proof. intros a b. unfold most_upvoted_first. apply _. Defined.

(** [.limit(n)]: zero is no limit, a negative [n] is taken as [|n|]. *)
Definition limit {A} (n : Z) (l : list A) : list A :=
  if decide (n = 0) then l else take (Z.to_nat (Z.abs n)) l.

(** [.skip(n).limit(m)] with [n] and [m] from [parseInt]; the store
    rejects [NaN] and a negative skip. *)
Definition skip_limit {A} (n m : option Z) (l : list A) : Try (list A) :=
  match n, m with
  | Some n, Some m =>
      if decide (n < 0)%Z then Throw
      else Return (limit m (drop (Z.to_nat n) l))
  | _, _ => Throw
  end.

(** What the [2dsphere] index accepts on insertion: a longitude in
    [-180, 180] and a latitude in [-90, 90]. *)
Definition index_accepts (c : list Number) : bool :=
  match c with
  | [Finite lng; Finite lat] =>
      Qle_bool (inject_Z (-180)) lng && Qle_bool lng (inject_Z 180)
      && Qle_bool (inject_Z (-90)) lat && Qle_bool lat (inject_Z 90)
  | _ => false
  end.

(** [Report.create(reportData)]: schema validation (the [department]
    enum), the geospatial index, and a fresh [_id]. *)
Definition Report_create (id : string) (data : Report) (st : State) : Try State :=
  if bool_decide (department data ∈ departments)
     && index_accepts (coordinates data)
     && bool_decide (reports st !! id = None)
  then Return (set_reports (<[id := data]> (reports st)) st)
  else Throw.

(** [mlService.queueClassificationJob]: [lPush] on the queue; a Redis
    failure is caught and logged. *)
Definition queueClassificationJob (env : Env) (id : string) (r : Report)
    (st : State) : State :=
  if redisUp env then
    push_job (mkJob id (description r) (image_url r) (title r) (now env)) st
  else st.

Definition respond (code : nat) (b : Body) (st : State) : Response * State :=
  (mkResponse code b, st).

(** ** The report controller *)

Module reportController.
Section handlers.
Context {RT : Runtime}.

(** [ToNumber], applied by the comparisons of [createReport]. *)
Definition ToNumber (v : JsVal) : Number :=
  match v with
  | JUndefined => NaN
  | JNull => Finite 0
  | JNum q => Finite q
  | JStr s => StringToNumber s
  end.

(** [parseFloat] of a body field. *)
Definition parseFloat (v : JsVal) : Number :=
  match v with
  | JNum q => Finite q
  | JStr s => parseFloatStr s
  | _ => NaN
  end.

(** [parseInt] of a query parameter with a numeric default. *)
Definition parseInt (v : option string) (d : Z) : option Z :=
  match v with
  | Some s => parseIntStr s
  | None => Some d
  end.

(** [parseFloat] of a query parameter. *)
Definition parseFloatParam (v : option string) : Number :=
  match v with
  | Some s => parseFloatStr s
  | None => NaN
  end.

(** [x < lo || x > hi] *)
Definition out_of_range (x : Number) (lo hi : Z) : bool :=
  num_lt x (Finite (inject_Z lo)) || num_lt (Finite (inject_Z hi)) x.

Definition createReport (env : Env) (req : CreateReq) (st : State)
  : Response * State :=
  let latitude := cr_latitude req in
  let longitude := cr_longitude req in
  if negb (truthy latitude) || negb (truthy longitude) then
    respond 400 (JError "Latitude and longitude are required") st
  else if out_of_range (ToNumber latitude) (-90) 90
          || out_of_range (ToNumber longitude) (-180) 180 then
    respond 400 (JError "Invalid coordinates") st
  else
    let reportData :=
      mkReport (or_else (cr_title req) "Processing...")
        (or_else (cr_description req) "")
        [parseFloat longitude; parseFloat latitude]
        (cr_address req)
        (upload_url (cr_image req)) (upload_url (cr_voice req))
        (or_else (cr_category req) "Processing")
        SUBMITTED "MEDIUM" (cr_userId req)
        0 [] false None None None None None false None None (now env) in
    match Report_create (newObjectId env) reportData st with
    | Throw => respond 500 (JError "Database error") st
    | Return st1 =>
        let st2 :=
          if mlDisabled env then st1
          else queueClassificationJob env (newObjectId env) reportData st1 in
        respond 201 (JReport "Report created successfully" reportData) st2
    end.

(** The cursor of a geospatial [find]: the store may reject the operator. *)
Definition find_geo (g : GeoQuery) (dept : option string) (n : Z)
    (st : State) : Try (list (string * Report)) :=
  match geoEval g with
  | Some p =>
      Return (limit n (merge_sort newest_first
        (find (mkFilter (Some (StatusNe "DELETED")) dept None None (Some p)) st)))
  | None => Throw
  end.

Definition getNearbyReports (lat lng radius : option string) (st : State)
  : Response * State :=
  if negb (present lat) || negb (present lng) then
    respond 400 (JError "Latitude and longitude are required") st
  else
    let latitude := parseFloatParam lat in
    let longitude := parseFloatParam lng in
    let maxDistance := parseInt radius 500 in
    if out_of_range latitude (-90) 90 || out_of_range longitude (-180) 180 then
      respond 400 (JError "Invalid coordinates") st
    else
      match find_geo (Near longitude latitude maxDistance) None 50 st with
      | Return l =>
          respond 200 (JReports "Nearby reports retrieved successfully" l) st
      | Throw => respond 500 (JError "Failed to get nearby reports") st
      end.

Definition getReportsInBounds (swLat swLng neLat neLng : option string)
    (st : State) : Response * State :=
  if negb (present swLat) || negb (present swLng)
     || negb (present neLat) || negb (present neLng) then
    respond 400
      (JError "Bounding box coordinates required: swLat, swLng, neLat, neLng") st
  else
    match find_geo (WithinBox (parseFloatParam swLng) (parseFloatParam swLat)
                      (parseFloatParam neLng) (parseFloatParam neLat))
            None 100 st with
    | Return l =>
        respond 200 (JReports "Reports in bounds retrieved successfully" l) st
    | Throw => respond 500 (JError "Failed to get reports in bounds") st
    end.

Definition getNearbyReportsByDepartment (lat lng dept radius : option string)
    (st : State) : Response * State :=
  if negb (present lat) || negb (present lng) || negb (present dept) then
    respond 400 (JError "Latitude, longitude, and department are required") st
  else
    match find_geo (Near (parseFloatParam lng) (parseFloatParam lat)
                      (parseInt radius 500)) dept 50 st with
    | Return l =>
        respond 200
          (JReports ("Nearby " ++ default "" dept ++ " reports retrieved successfully") l) st
    | Throw => respond 500 (JError "Failed to get nearby reports by department") st
    end.

Definition acknowledgeReport (reportId : string) (st : State)
  : Response * State :=
  match findById (reports st) reportId with
  | Throw => respond 500 (JError "Failed to acknowledge report") st
  | Return None => respond 404 (JError "Report not found") st
  | Return (Some report) =>
      if decide (reportStatus report ≠ SUBMITTED) then
        respond 400 (JError "Report cannot be acknowledged") st
      else
        let report := set_reportStatus ACKNOWLEDGED report in
        respond 200 (JReport "Report acknowledged successfully" report)
          (save_report (ObjectId reportId) report st)
  end.

Definition resolveReport (reportId : string) (st : State)
  : Response * State :=
  match findById (reports st) reportId with
  | Throw => respond 500 (JError "Failed to resolve report") st
  | Return None => respond 404 (JError "Report not found") st
  | Return (Some report) =>
      if negb (bool_decide (reportStatus report ∈ [SUBMITTED; ACKNOWLEDGED])) then
        respond 400 (JError "Report cannot be resolved") st
      else
        let report := set_reportStatus RESOLVED report in
        respond 200 (JReport "Report resolved successfully" report)
          (save_report (ObjectId reportId) report st)
  end.

Definition deleteReport (reportId : string) (st : State)
  : Response * State :=
  match findById (reports st) reportId with
  | Throw => respond 500 (JError "Failed to delete report") st
  | Return None => respond 404 (JError "Report not found") st
  | Return (Some report) =>
      respond 200 (JMessage "Report deleted successfully")
        (save_report (ObjectId reportId) (set_reportStatus DELETED report) st)
  end.

Definition getUserReports (user : string) (st : State) : Response * State :=
  respond 200
    (JReports "Reports retrieved successfully"
       (merge_sort newest_first
          (find (mkFilter (Some (StatusNe "DELETED")) None None (Some user) None) st)))
    st.

Definition mlWebhook (env : Env) (req : WebhookBody) (st : State)
  : Response * State :=
  match wb_classification req with
  | None => respond 500 (JError "Webhook processing failed") st
  | Some classification =>
      let reportId := wb_reportId req in
      match findByIdAndUpdate (apply_updateData classification) reportId st with
      | Throw => respond 500 (JError "Webhook processing failed") st
      | Return (updatedReportFromDB, st1) =>
          let st2 :=
            if io env then
              emit (mkEvent reportId "ML_PROCESSED" updatedReportFromDB
                      "AI analysis complete!") st1
            else st1 in
          respond 200
            (JWebhook "Webhook received and database updated successfully"
               updatedReportFromDB) st2
      end
  end.

(** The filter both [getAllReports] and [getAllReportsForMobile] build:
    [if (status) filter.reportStatus = status] replaces the exclusion of
    deleted reports. *)
Definition list_filter (q : ListQuery) (with_severity : bool) : Filter :=
  mkFilter
    (if present (q_status q) then StatusIs <$> q_status q
     else Some (StatusNe "DELETED"))
    (if present (q_department q) then q_department q else None)
    (if with_severity && present (q_severity q) then q_severity q else None)
    None None.

Definition getAllReports (q : ListQuery) (st : State) : Response * State :=
  let filter := list_filter q false in
  let page := parseInt (q_page q) 1 in
  let lim := parseInt (q_limit q) 20 in
  let skip := p ← page; l ← lim; Some ((p - 1) * l) in
  match skip_limit skip lim (merge_sort newest_first (find filter st)) with
  | Return l => respond 200 (JReports "All reports retrieved successfully" l) st
  | Throw => respond 500 (JError "Failed to get reports") st
  end.

Definition upvoteReport (user reportId : string) (st : State)
  : Response * State :=
  if negb (isObjectId reportId) then
    respond 400 (JError "Invalid report ID format") st
  else
    match findById (reports st) reportId with
    | Throw => respond 500 (JError "Failed to upvote report") st
    | Return None => respond 404 (JError "Report not found") st
    | Return (Some report) =>
        if decide (reportStatus report = DELETED) then
          respond 400 (JError "Cannot upvote deleted report") st
        else if bool_decide (user ∈ upvotedBy report) then
          let report :=
            set_upvotes (upvotes report - 1)
              (List.filter (λ id, negb (bool_decide (id = user))) (upvotedBy report))
              report in
          respond 200
            (JUpvotes "Report upvote removed successfully" (upvotes report))
            (save_report (ObjectId reportId) report st)
        else
          let report :=
            set_upvotes (upvotes report + 1) (upvotedBy report ++ [user]) report in
          respond 200
            (JUpvotes "Report upvoted successfully" (upvotes report))
            (save_report (ObjectId reportId) report st)
    end.

Definition getAllReportsForMobile (q : ListQuery) (st : State)
  : Response * State :=
  let filter := list_filter q true in
  let page := parseInt (q_page q) 1 in
  let lim := parseInt (q_limit q) 20 in
  let skip := p ← page; l ← lim; Some ((p - 1) * l) in
  match skip_limit skip lim (merge_sort most_upvoted_first (find filter st)) with
  | Return l => respond 200 (JReports "Reports retrieved successfully" l) st
  | Throw => respond 500 (JError "Failed to get reports") st
  end.

Definition getUserReportsForMobile (user : string) (q : ListQuery)
    (st : State) : Response * State :=
  let page := parseInt (q_page q) 1 in
  let lim := parseInt (q_limit q) 20 in
  let skip := p ← page; l ← lim; Some ((p - 1) * l) in
  match skip_limit skip lim
          (merge_sort newest_first
             (find (mkFilter (Some (StatusNe "DELETED")) None None (Some user) None) st))
  with
  | Return l => respond 200 (JReports "User reports retrieved successfully" l) st
  | Throw => respond 500 (JError "Failed to get user reports") st
  end.

(** The award block: [User.findById], the two increments, [updateBadge],
    [save]; a user that is not found is skipped. *)
Definition award (n : N) (uid : string) (st : State) : State :=
  match users st !! uid with
  | Some u =>
      let u := set_points (points u + n) u in
      let u := set_monthlyPoints (monthlyPoints u + n) u in
      save_user uid (fst (updateBadge u)) st
  | None => st
  end.

(** [.populate('upvotedBy', ...)] keeps the references that resolve. *)
Definition populate_upvotedBy (st : State) (report : Report) : list string :=
  List.filter (λ id, bool_decide (is_Some (users st !! id))) (upvotedBy report).

Definition updateReportStatusResolve (user reportId : string) (st : State)
  : Response * State :=
  match findById (reports st) reportId with
  | Throw => respond 500 (JError "Failed to resolve report") st
  | Return None => respond 404 (JError "Report not found") st
  | Return (Some report) =>
      match users st !! userId report with
      | None =>
          (* the populated [report.userId] is [null]: reading [_id] throws *)
          respond 500 (JError "Failed to resolve report") st
      | Some _ =>
          if decide (userId report ≠ user) then
            respond 403 (JError "You can only resolve your own reports") st
          else if decide (reportStatus report ≠ ACKNOWLEDGED) then
            respond 400
              (JError "Report can only be resolved after it has been acknowledged") st
          else
            let oldStatus := reportStatus report in
            let upvoters := populate_upvotedBy st report in
            let report := set_reportStatus RESOLVED report in
            let st := save_report (ObjectId reportId) report st in
            let st :=
              if decide (oldStatus ≠ RESOLVED) then
                foldl (λ s upvoter, award 5 upvoter s)
                  (award 20 (userId report) st) upvoters
              else st in
            respond 200
              (JReport "Report resolved successfully! Points awarded." report) st
      end
  end.

End handlers.
End reportController.

(** ** The admin controller *)

Module adminController.
Section handlers.
Context {RT : Runtime}.

(** [Report.find()] without a filter, newest first. *)
Definition getAllReports (st : State) : Response * State :=
  respond 200
    (JReports "" (merge_sort newest_first (find (mkFilter None None None None None) st)))
    st.

Definition updateReportAcknowledge (env : Env) (adminId reportId : string)
    (st : State) : Response * State :=
  match findByIdAndUpdate (set_acknowledged (now env) adminId) reportId st with
  | Throw => respond 500 (JError "Failed to acknowledge report") st
  | Return (None, st) => respond 404 (JError "Report not found") st
  | Return (Some report, st) =>
      let st :=
        if io env then
          emit (mkEvent reportId "ACKNOWLEDGED" None
                  "Your report has been acknowledged by authorities!") st
        else st in
      respond 200 (JReport "Report acknowledged successfully" report) st
  end.

(** Every stored report has [location.coordinates]; the projection keeps
    the fields read below. *)
Definition getReportLocations (st : State) : Response * State :=
  respond 200
    (JLocations
       (map (λ d : string * Report,
               let report := snd d in
               mkLocation (coordinates report !! 1%nat) (coordinates report !! 0%nat)
                 (department report) (severity report) (title report))
            (find (mkFilter None None None None None) st)))
    st.

End handlers.
End adminController.

(** ** The classification queue service *)

Module mlService.

(** [s.startsWith(p)] *)
Fixpoint startsWith (p s : string) : bool :=
  match p, s with
  | EmptyString, _ => true
  | String a p', String b s' => Ascii.eqb a b && startsWith p' s'
  | String _ _, EmptyString => false
  end.

(** [s.includes(p)] *)
Fixpoint includes (p s : string) : bool :=
  startsWith p s
  || match s with
     | EmptyString => false
     | String _ s' => includes p s'
     end.

(** [s] without its first [n] characters. *)
Fixpoint skip (n : nat) (s : string) : string :=
  match n, s with
  | O, _ => s
  | S n', String _ s' => skip n' s'
  | S _, EmptyString => EmptyString
  end.

(** [s.replace(p, r)] for a string pattern and a replacement without
    [$]: the first occurrence of [p] is replaced. *)
Fixpoint replace (p r s : string) : string :=
  if startsWith p s then r ++ skip (String.length p) s
  else match s with
       | EmptyString => EmptyString
       | String c s' => String c (replace p r s')
       end.

(** The URL the constructor connects to: [REDIS_URL] or the local
    default, with an Upstash URL upgraded to the secure scheme. *)
Definition redisUrl (REDIS_URL : option string) : string :=
  let redisUrl := or_else REDIS_URL "redis://localhost:6379" in
  if includes "upstash.io" redisUrl && startsWith "redis://" redisUrl
  then replace "redis://" "rediss://" redisUrl
  else redisUrl.

(** [socket.tls] of the client. *)
Definition isSecure (REDIS_URL : option string) : bool :=
  startsWith "rediss://" (redisUrl REDIS_URL).

(** [getQueueStatus]: the length of the queue, 0 when Redis fails. *)
Definition getQueueStatus (env : Env) (st : State) : nat :=
  if redisUp env then length (queue st) else 0%nat.

End mlService.

(** ** Login attempts and the monthly reset of the [User] schema *)

(** A user document with the fields the remaining schema methods touch.
    [loginAttempts] has the default 0, which is also what a document
    reads after [$unset]; a [Date] is its time in milliseconds. *)
Record Account := mkAccount {
  reputation : User;
  lastMonthlyReset : Z;
  lastLogin : option Z;
  loginAttempts : Z;
  lockUntil : option Z
}.

(** The virtual [isLocked] at the clock reading [t]. *)
Definition isLocked (t : Z) (a : Account) : bool :=
  match lockUntil a with
  | Some l => bool_decide (t < l)%Z
  | None => false
  end.

(** [incLoginAttempts]; [t1], [t2] and [t3] are the readings of
    [Date.now()] in the order the method takes them. *)
Definition incLoginAttempts (t1 t2 t3 : Z) (a : Account) : Account :=
  if match lockUntil a with
     | Some l => bool_decide (l < t1)%Z
     | None => false
     end
  then
    mkAccount (reputation a) (lastMonthlyReset a) (lastLogin a) 1 None
  else
    let lock :=
      if bool_decide (5 ≤ loginAttempts a + 1)%Z && negb (isLocked t2 a)
      then Some (t3 + 2 * 60 * 60 * 1000)%Z
      else lockUntil a in
    mkAccount (reputation a) (lastMonthlyReset a) (lastLogin a)
      (loginAttempts a + 1) lock.

(** [resetLoginAttempts] at the time [t] *)
Definition resetLoginAttempts (t : Z) (a : Account) : Account :=
  mkAccount (reputation a) (lastMonthlyReset a) (Some t) 0 None.

(** [resetMonthlyPoints] at the time [t] *)
Definition resetMonthlyPoints (t : Z) (a : Account) : Account :=
  mkAccount (set_monthlyPoints 0 (reputation a)) t (lastLogin a)
    (loginAttempts a) (lockUntil a).

(** [addPoints] on the document. *)
Definition accountAddPoints (n : N) (a : Account) : Account :=
  mkAccount (addPoints n (reputation a)) (lastMonthlyReset a) (lastLogin a)
    (loginAttempts a) (lockUntil a).

(** Failed logins one after the other, each with its clock readings. *)
Definition failedLogins (ts : list (Z * Z * Z)) (a : Account) : Account :=
  foldl (λ acc t, incLoginAttempts (fst (fst t)) (snd (fst t)) (snd t) acc) a ts.


(** ** The requests that write *)

(** A request to one of the writing routes of the two controllers. *)
Inductive Request :=
| CreateReport (env : Env) (req : CreateReq)
| AcknowledgeReport (reportId : string)
| ResolveReport (reportId : string)
| DeleteReport (reportId : string)
| UpvoteReport (user reportId : string)
| UpdateReportStatusResolve (user reportId : string)
| MlWebhook (env : Env) (req : WebhookBody)
| UpdateReportAcknowledge (env : Env) (adminId reportId : string).

Section routes.
Context {RT : Runtime}.

Definition handle (q : Request) (st : State) : Response * State :=
  match q with
  | CreateReport env req => reportController.createReport env req st
  | AcknowledgeReport id => reportController.acknowledgeReport id st
  | ResolveReport id => reportController.resolveReport id st
  | DeleteReport id => reportController.deleteReport id st
  | UpvoteReport user id => reportController.upvoteReport user id st
  | UpdateReportStatusResolve user id =>
      reportController.updateReportStatusResolve user id st
  | MlWebhook env req => reportController.mlWebhook env req st
  | UpdateReportAcknowledge env adminId id =>
      adminController.updateReportAcknowledge env adminId id st
  end.

(** The state after a run of requests served one after the other. *)
Definition serve (qs : list Request) (st : State) : State :=
  foldl (λ s q, snd (handle q s)) st qs.

End routes.

(** The requests of the report controller. *)
Definition report_route (q : Request) : bool :=
  match q with
  | UpdateReportAcknowledge _ _ _ => false
  | _ => true
  end.

(** The order of the lifecycle. *)
Definition status_rank (s : Status) : nat :=
  match s with
  | SUBMITTED => 0
  | ACKNOWLEDGED => 1
  | RESOLVED => 2
  | DELETED => 3
  end.

(** The counter agrees with the list of upvoters, which names nobody
    twice. *)
Definition upvotes_consistent (r : Report) : Prop :=
  upvotes r = Z.of_nat (length (upvotedBy r)) ∧ NoDup (upvotedBy r).

(** What one writing request can do to a stored report; [admin] says
    whether the admin controller's acknowledge route is among the requests. *)
Inductive effect (admin : bool) (r : Report) : Report → Prop :=
| effect_none : effect admin r r
| effect_status s :
    (status_rank (reportStatus r) ≤ status_rank s)%nat →
    effect admin r (set_reportStatus s r)
| effect_unvote user :
    user ∈ upvotedBy r →
    effect admin r
      (set_upvotes (upvotes r - 1)
         (List.filter (λ id, negb (bool_decide (id = user))) (upvotedBy r)) r)
| effect_upvote user :
    user ∉ upvotedBy r →
    effect admin r (set_upvotes (upvotes r + 1) (upvotedBy r ++ [user]) r)
| effect_classified c : effect admin r (apply_updateData c r)
| effect_admin_acknowledge t adminId :
    admin = true → effect admin r (set_acknowledged t adminId r).

(** ** Sample data for the examples *)

(** A runtime for the examples: a numeral is a run of decimal digits, and
    the store selects every document when the operator is well formed. *)
Fixpoint digits (s : string) (acc : Z) : option Z :=
  match s with
  | EmptyString => Some acc
  | String c s' =>
      let n := nat_of_ascii c in
      if ((48 <=? n) && (n <=? 57))%nat
      then digits s' (10 * acc + Z.of_nat (n - 48))
      else None
  end.

Definition readInt (s : string) : option Z :=
  match s with
  | EmptyString => None
  | _ => digits s 0
  end.

Definition readNumber (s : string) : Number :=
  match readInt s with
  | Some z => Finite (inject_Z z)
  | None => NaN
  end.

Definition sampleRuntime : Runtime :=
  {| StringToNumber := readNumber;
     parseFloatStr := readNumber;
     parseIntStr := readInt;
     geoEval g :=
       match g with
       | Near (Finite _) (Finite _) (Some d) =>
           if decide (0 ≤ d)%Z then Some (λ _, true) else None
       | WithinBox (Finite _) (Finite _) (Finite _) (Finite _) => Some (λ _, true)
       | _ => None
       end |}.

Definition sampleEnv : Env := mkEnv 1700000000 "64b7f0c2a1d3e4f5a6b7c8d9" false true true.

Definition alice : string := "64b7f0c2a1d3e4f5a6b7c801".
Definition bob : string := "64b7f0c2a1d3e4f5a6b7c802".
Definition admin1 : string := "64b7f0c2a1d3e4f5a6b7c8aa".
Definition report1 : string := "64b7f0c2a1d3e4f5a6b7c8e1".
(** The same id as a client may spell it. *)
Definition report1_upper : string := "64B7F0C2A1D3E4F5A6B7C8E1".

Definition newUser (n : string) : User := mkUser n 0 0 Bronze None.

(** A pothole report by [alice] at (12, 77) with the given status, count
    and upvoters. *)
Definition pothole (s : Status) (n : Z) (l : list string) : Report :=
  mkReport "Pothole" "Deep pothole on the main road"
    [Finite (inject_Z 77); Finite (inject_Z 12)] None None None
    "Roads" s "MEDIUM" alice n l false None None None None None
    false None None 1690000000.

Definition sampleState (r : Report) : State :=
  mkState {[ report1 := r ]}
          {[ alice := newUser "Alice"; bob := newUser "Bob" ]} [] [].

(** The request body [{ latitude: lat, longitude: lng }] of [alice]. *)
Definition createAt (lat lng : JsVal) : CreateReq :=
  mkCreateReq None (Some "Deep pothole") (Some "Roads") lat lng None alice
    NoFile NoFile.

(** A classification result proposing the title [t]. *)
Definition sampleClassification (t : option string) : Classification :=
  mkClassification "HIGH" "Roads" t (9 # 10, 8 # 10)%Q None.

(** The sample state after its report was deleted. *)
Definition deletedState : State :=
  snd (reportController.deleteReport report1 (sampleState (pothole SUBMITTED 0 []))).

(** ** Notions of the specification *)

(** The threshold table of the specification, read top down. *)
Definition highest_threshold (p : N) (b : Badge) : Prop :=
  match b with
  | Platinum => (1000 <= p)%N
  | Gold => (500 <= p < 1000)%N
  | Silver => (200 <= p < 500)%N
  | Bronze => (p < 200)%N
  end.

(** A coordinate the claim on zero coordinates speaks of: the number 0,
    or no value ([undefined], [null], the empty string). *)
Definition zero_or_absent (v : JsVal) : Prop :=
  match v with
  | JUndefined | JNull => True
  | JNum q => (q == 0)%Q
  | JStr s => s = ""
  end.

(** A numeric coordinate inside [lo, hi]. *)
Definition within (v : JsVal) (lo hi : Z) : Prop :=
  match v with
  | JNum q => (inject_Z lo <= q)%Q ∧ (q <= inject_Z hi)%Q
  | _ => False
  end.

(** How often [u] occurs in a list of user ids. *)
Definition occurrences (u : string) (l : list string) : N :=
  N.of_nat (length (List.filter (λ x, bool_decide (x = u)) l)).

(** [k] points credited to a user document; nothing is written for 0. *)
Definition credit (k : N) (u : User) : User :=
  if decide (k = 0%N) then u else addPoints k u.

(** The points a resolution credits to [u]: 20 to the submitter and 5 for
    each entry of [upvotedBy]. *)
Definition resolution_points (report : Report) (u : string) : N :=
  ((if decide (u = userId report) then 20 else 0)
   + 5 * occurrences u (upvotedBy report))%N.

(** The document the Reconciler leaves for the report [id]. *)
Definition reconcile (req : WebhookBody) (id : string) (r : Report) : Report :=
  match wb_classification req with
  | Some c =>
      if isObjectId (wb_reportId req)
         && bool_decide (id = ObjectId (wb_reportId req))
      then apply_updateData c r else r
  | None => r
  end.

(** The reports of a listing response. *)
Definition results (r : Response) : list (string * Report) :=
  match body r with
  | JReports _ l => l
  | _ => []
  end.

(** A response that lists stored reports only, none of them [DELETED],
    and leaves the state alone. *)
Definition lists_live_reports (st : State) (out : Response * State) : Prop :=
  snd out = st
  ∧ ∀ d, d ∈ results (fst out) →
         reports st !! fst d = Some (snd d) ∧ reportStatus (snd d) ≠ DELETED.

(** * Properties *)

(** ** Reputation *)

Lemma newBadge_highest p : highest_threshold p (newBadge p).
Proof.
  unfold newBadge.
  destruct (N.leb_spec 1000 p) as [H1|H1]; [exact H1|].
  destruct (N.leb_spec 500 p) as [H2|H2]; [simpl; lia|].
  destruct (N.leb_spec 200 p); simpl; lia.
Qed.

Lemma newBadge_unique p b : highest_threshold p b → b = newBadge p.
Proof.
  pose proof (newBadge_highest p) as H.
  destruct b, (newBadge p); simpl in *; intros; try reflexivity; lia.
Qed.

Lemma updateBadge_badge u : badge (fst (updateBadge u)) = newBadge (points u).
Proof. unfold updateBadge. case_decide; simpl; congruence. Qed.

Lemma updateBadge_changed u :
  snd (updateBadge u) = true ↔ badge u ≠ newBadge (points u).
Proof. unfold updateBadge. case_decide; simpl; split; congruence. Qed.

(** What [addPoints] leaves in the document. *)
Lemma addPoints_eq n u :
  addPoints n u =
  mkUser (name u) (points u + n) (monthlyPoints u + n)
         (newBadge (points u + n)) (fcmToken u).
Proof.
  unfold addPoints, updateBadge. simpl.
  case_decide as Hb; simpl; [|reflexivity].
  unfold set_monthlyPoints, set_points; simpl. simpl in Hb. by rewrite Hb.
Qed.

(** C7: [addPoints n] adds [n] to both [points] and [monthlyPoints] and
    then leaves the badge of the highest threshold the new total reaches
    (1000 Platinum, else 500 Gold, else 200 Silver, else Bronze); for a user
    whose points are 0, 199, 200, 499, 500, 999, 1000 the recomputed badges
    are Bronze, Bronze, Silver, Silver, Gold, Gold, Platinum. *)
Theorem addPoints_spec :
  (∀ n u,
      points (addPoints n u) = (points u + n)%N
      ∧ monthlyPoints (addPoints n u) = (monthlyPoints u + n)%N
      ∧ badge (addPoints n u) = newBadge (points u + n)
      ∧ highest_threshold (points (addPoints n u)) (badge (addPoints n u)))
  ∧ (∀ u,
      map (λ p, badge (fst (updateBadge (set_points p u))))
          [0; 199; 200; 499; 500; 999; 1000]%N
      = [Bronze; Bronze; Silver; Silver; Gold; Gold; Platinum]).
Proof.
  split.
  - intros n u. rewrite addPoints_eq. simpl.
    repeat split; try reflexivity; apply newBadge_highest.
  - intros u. simpl. by rewrite !updateBadge_badge.
Qed.

(** ** Report creation *)

Lemma num_lt_Finite x y : num_lt (Finite x) (Finite y) = true ↔ (x < y)%Q.
Proof.
  simpl. destruct (Qlt_le_dec x y) as [H|H]; split; intros; try done.
  exfalso. eapply Qlt_not_le; eauto.
Qed.

Lemma out_of_range_Finite q lo hi :
  reportController.out_of_range (Finite q) lo hi = false
  ↔ (inject_Z lo <= q)%Q ∧ (q <= inject_Z hi)%Q.
Proof.
  unfold reportController.out_of_range. rewrite orb_false_iff.
  rewrite <- !not_true_iff_false, !num_lt_Finite.
  split; intros [H1 H2]; split.
  - by apply Qnot_lt_le.
  - by apply Qnot_lt_le.
  - by apply Qle_not_lt.
  - by apply Qle_not_lt.
Qed.

Lemma truthy_zero_or_absent v : zero_or_absent v → truthy v = false.
Proof.
  destruct v as [| |q|s]; simpl; try done.
  - intros Hq. apply negb_false_iff. by apply Qeq_bool_iff.
  - intros ->. done.
Qed.

Lemma truthy_JNum q : truthy (JNum q) = true ↔ ¬ (q == 0)%Q.
Proof.
  simpl. rewrite negb_true_iff, <- not_true_iff_false.
  split; intros H H'; apply H; by apply Qeq_bool_iff.
Qed.

Section createReport.
Context {RT : Runtime}.

(** The presence check of [createReport] answers before anything else. *)
Lemma createReport_missing env req st :
  truthy (cr_latitude req) = false ∨ truthy (cr_longitude req) = false →
  reportController.createReport env req st =
    (mkResponse 400 (JError "Latitude and longitude are required"), st).
Proof.
  intros H. unfold reportController.createReport.
  destruct H as [-> | ->]; simpl; [done|].
  by rewrite orb_true_r.
Qed.

Lemma truthy_not_zero_or_absent v : ¬ zero_or_absent v → truthy v = true.
Proof.
  destruct v as [| |q|s]; simpl; try tauto.
  - intros Hq. apply truthy_JNum. exact Hq.
  - intros Hs. by rewrite bool_decide_eq_false_2.
Qed.

(** C10 as the code has it: a create-report request whose latitude or
    longitude is the number 0, or is absent ([undefined], [null] or the
    empty string), is answered with the missing-coordinates validation
    error and creates nothing, although 0 lies inside both documented
    ranges; any other value passes the presence check, a coordinate sent
    as the string "0" included, and the request is then not answered with
    that error. *)
Theorem createReport_zero_coordinate_rejected env req st :
  (zero_or_absent (cr_latitude req) ∨ zero_or_absent (cr_longitude req) →
   reportController.createReport env req st =
     (mkResponse 400 (JError "Latitude and longitude are required"), st)
   ∧ ValidationError (fst (reportController.createReport env req st))
   ∧ within (JNum 0) (-90) 90 ∧ within (JNum 0) (-180) 180)
  ∧ (¬ zero_or_absent (cr_latitude req) → ¬ zero_or_absent (cr_longitude req) →
     fst (reportController.createReport env req st)
     ≠ mkResponse 400 (JError "Latitude and longitude are required"))
  ∧ ¬ zero_or_absent (JStr "0").
Proof.
  split; [|split].
  - intros H.
    assert (reportController.createReport env req st =
      (mkResponse 400 (JError "Latitude and longitude are required"), st)) as E.
    { apply createReport_missing.
      destruct H as [H|H]; [left|right]; by apply truthy_zero_or_absent. }
    rewrite E. repeat split; try done.
  - intros H1%truthy_not_zero_or_absent H2%truthy_not_zero_or_absent.
    unfold reportController.createReport. rewrite H1, H2. simpl negb.
    simpl orb at 1. cbv iota.
    destruct (_ || _); [simpl; discriminate|].
    cbv zeta. destruct (Report_create _ _ _) as [st1|]; simpl; discriminate.
  - simpl. discriminate.
Qed.

(** C8, the failing input: latitude 0 with longitude 77.59 is a valid
    pair, which the geospatial index would accept in the order
    longitude, latitude; [createReport] answers that the coordinates are
    missing and stores nothing. *)
Theorem createReport_rejects_valid_zero_latitude env st :
  let req := createAt (JNum 0) (JNum (7759 # 100)) in
  within (cr_latitude req) (-90) 90
  ∧ within (cr_longitude req) (-180) 180
  ∧ index_accepts [reportController.parseFloat (cr_longitude req);
                   reportController.parseFloat (cr_latitude req)] = true
  ∧ reportController.createReport env req st =
      (mkResponse 400 (JError "Latitude and longitude are required"), st).
Proof.
  repeat split; try done.
Qed.

(** Numeric coordinates other than 0 inside the ranges are stored in the
    order longitude, latitude, and the classification job is queued. *)
Lemma createReport_stores_lng_lat env req st lat lng :
  cr_latitude req = JNum lat → cr_longitude req = JNum lng →
  ¬ (lat == 0)%Q → ¬ (lng == 0)%Q →
  within (JNum lat) (-90) 90 → within (JNum lng) (-180) 180 →
  or_else (cr_category req) "Processing" ∈ departments →
  reports st !! newObjectId env = None →
  ∃ report st',
    reportController.createReport env req st =
      (mkResponse 201 (JReport "Report created successfully" report), st')
    ∧ reports st' = <[newObjectId env := report]> (reports st)
    ∧ coordinates report = [Finite lng; Finite lat]
    ∧ reportStatus report = SUBMITTED
    ∧ userId report = cr_userId req
    ∧ users st' = users st
    ∧ queue st' =
        if mlDisabled env || negb (redisUp env) then queue st
        else mkJob (newObjectId env) (description report) (image_url report)
               (title report) (now env) :: queue st.
Proof.
  intros Hlat Hlng Hz1 Hz2 [Ha Hb] [Hc Hd] Hdep Hfresh.
  unfold reportController.createReport. rewrite Hlat, Hlng.
  rewrite (proj2 (truthy_JNum lat) Hz1), (proj2 (truthy_JNum lng) Hz2). simpl negb.
  simpl orb at 1. cbv iota.
  simpl reportController.ToNumber.
  rewrite (proj2 (out_of_range_Finite lat (-90) 90) (conj Ha Hb)).
  rewrite (proj2 (out_of_range_Finite lng (-180) 180) (conj Hc Hd)).
  simpl orb. cbv iota. cbv zeta.
  unfold Report_create. simpl department. simpl coordinates.
  rewrite (bool_decide_eq_true_2 _ Hdep).
  assert (index_accepts [Finite lng; Finite lat] = true) as ->.
  { simpl. rewrite !andb_true_iff, !Qle_bool_iff. done. }
  rewrite (bool_decide_eq_true_2 _ Hfresh). simpl andb. cbv iota.
  eexists _, _. split; [reflexivity|].
  unfold queueClassificationJob.
  destruct (mlDisabled env), (redisUp env); simpl; done.
Qed.

(** Numeric coordinates outside the ranges are rejected with a 400 and
    nothing is created or queued. *)
Lemma createReport_out_of_range env req st lat lng :
  cr_latitude req = JNum lat → cr_longitude req = JNum lng →
  ¬ (within (JNum lat) (-90) 90 ∧ within (JNum lng) (-180) 180) →
  ValidationError (fst (reportController.createReport env req st))
  ∧ snd (reportController.createReport env req st) = st.
Proof.
  intros Hlat Hlng Hout.
  unfold reportController.createReport. rewrite Hlat, Hlng.
  destruct (negb (truthy (JNum lat)) || negb (truthy (JNum lng))); [done|].
  simpl reportController.ToNumber.
  destruct (reportController.out_of_range (Finite lat) (-90) 90) eqn:E1; [done|].
  destruct (reportController.out_of_range (Finite lng) (-180) 180) eqn:E2; [done|].
  exfalso. apply Hout. split.
  - by apply out_of_range_Finite.
  - by apply out_of_range_Finite.
Qed.
End createReport.

Lemma createReport_zero_coordinate_rejected_witness :
  reportController.createReport (RT := sampleRuntime) sampleEnv
    (createAt (JNum 0) (JNum (7759 # 100))) (sampleState (pothole SUBMITTED 0 []))
  = (mkResponse 400 (JError "Latitude and longitude are required"),
     sampleState (pothole SUBMITTED 0 []))
  ∧ fst (reportController.createReport (RT := sampleRuntime) sampleEnv
           (createAt (JStr "0") (JStr "77")) (sampleState (pothole SUBMITTED 0 [])))
    ≠ mkResponse 400 (JError "Latitude and longitude are required").
Proof.
  destruct (createReport_zero_coordinate_rejected (RT := sampleRuntime) sampleEnv
              (createAt (JNum 0) (JNum (7759 # 100)))
              (sampleState (pothole SUBMITTED 0 []))) as (Hzero & _ & _).
  destruct (createReport_zero_coordinate_rejected (RT := sampleRuntime) sampleEnv
              (createAt (JStr "0") (JStr "77"))
              (sampleState (pothole SUBMITTED 0 []))) as (_ & Hstr & _).
  split.
  - apply Hzero. left. simpl. reflexivity.
  - apply Hstr; simpl; discriminate.
Defined.

(** C10 as stated fails for a form body: latitude 0 sent as the string
    "0" with longitude "77" is not missing; the report is created with the
    coordinates [77, 0]. *)
Lemma createReport_string_zero_accepted :
  let st := sampleState (pothole SUBMITTED 0 []) in
  let out := reportController.createReport (RT := sampleRuntime) sampleEnv
               (createAt (JStr "0") (JStr "77")) st in
  reportController.ToNumber (RT := sampleRuntime) (JStr "0") = Finite (inject_Z 0)
  ∧ status (fst out) = 201%nat
  ∧ coordinates <$> reports (snd out) !! newObjectId sampleEnv
    = Some [Finite (inject_Z 77); Finite (inject_Z 0)]
  ∧ snd out ≠ st.
Proof.
  split; [reflexivity|]. split; [reflexivity|]. split; [reflexivity|].
  intros H. apply (f_equal (λ s, length (queue s))) in H.
  vm_compute in H. discriminate H.
Qed.

(** ** Acknowledging *)

Lemma findById_Some {A} (m : gmap string A) id :
  isObjectId id = true → findById m id = Return (m !! ObjectId id).
Proof. unfold findById. by intros ->. Qed.

(** The report route refuses a report that is not [SUBMITTED] and leaves
    the state as it was. *)
Lemma acknowledgeReport_guard id st r :
  isObjectId id = true → reports st !! ObjectId id = Some r →
  reportStatus r ≠ SUBMITTED →
  reportController.acknowledgeReport id st =
    (mkResponse 400 (JError "Report cannot be acknowledged"), st).
Proof.
  intros Hid Hr Hs. unfold reportController.acknowledgeReport.
  rewrite findById_Some, Hr by done. by rewrite decide_True.
Qed.

(** C3, where the two acknowledge handlers leave the claim: the admin
    route has no guard on the current status, so a report in any status,
    [RESOLVED] and [DELETED] included, is answered with 200 and becomes
    [ACKNOWLEDGED] with the stamps set; the report route has the guard but
    sets only the status and leaves [acknowledgedAt], [acknowledgedBy] and
    [isAcknowledged] as they were. *)
Theorem acknowledge_handlers_diverge :
  (∀ env adminId id st r,
      isObjectId id = true → reports st !! ObjectId id = Some r →
      let out := adminController.updateReportAcknowledge env adminId id st in
      status (fst out) = 200%nat
      ∧ reports (snd out) !! ObjectId id
        = Some (set_acknowledged (now env) adminId r)
      ∧ reportStatus (set_acknowledged (now env) adminId r) = ACKNOWLEDGED)
  ∧ (∀ id st r,
      isObjectId id = true → reports st !! ObjectId id = Some r →
      reportStatus r = SUBMITTED →
      let out := reportController.acknowledgeReport id st in
      status (fst out) = 200%nat
      ∧ reports (snd out) !! ObjectId id = Some (set_reportStatus ACKNOWLEDGED r)
      ∧ acknowledgedAt (set_reportStatus ACKNOWLEDGED r) = acknowledgedAt r
      ∧ acknowledgedBy (set_reportStatus ACKNOWLEDGED r) = acknowledgedBy r
      ∧ isAcknowledged (set_reportStatus ACKNOWLEDGED r) = isAcknowledged r).
Proof.
  split.
  - intros env adminId id st r Hid Hr. simpl.
    unfold adminController.updateReportAcknowledge, findByIdAndUpdate.
    rewrite Hid, Hr. simpl.
    destruct (io env); simpl; rewrite lookup_insert_eq; done.
  - intros id st r Hid Hr Hs. simpl.
    unfold reportController.acknowledgeReport.
    rewrite findById_Some, Hr by done.
    rewrite decide_False by (rewrite Hs; auto). simpl.
    rewrite lookup_insert_eq. done.
Qed.

Lemma acknowledge_handlers_diverge_witness :
  (let out := adminController.updateReportAcknowledge sampleEnv admin1 report1
                (sampleState (pothole RESOLVED 0 [])) in
   status (fst out) = 200%nat
   ∧ reportStatus <$> reports (snd out) !! report1 = Some ACKNOWLEDGED)
  ∧ (let out := reportController.acknowledgeReport report1
                  (sampleState (pothole SUBMITTED 0 [])) in
     status (fst out) = 200%nat
     ∧ acknowledgedAt <$> reports (snd out) !! report1 = Some None
     ∧ acknowledgedBy <$> reports (snd out) !! report1 = Some None).
Proof.
  destruct acknowledge_handlers_diverge as [Hadmin Hroute].
  split.
  - destruct (Hadmin sampleEnv admin1 report1
                (sampleState (pothole RESOLVED 0 [])) (pothole RESOLVED 0 []))
      as (H1 & H2 & H3); [reflexivity | reflexivity |].
    change (ObjectId report1) with report1 in H2.
    simpl. split; [exact H1|]. rewrite H2. reflexivity.
  - destruct (Hroute report1 (sampleState (pothole SUBMITTED 0 []))
                (pothole SUBMITTED 0 []))
      as (H1 & H2 & H3 & H4 & H5); [reflexivity | reflexivity | reflexivity |].
    change (ObjectId report1) with report1 in H2.
    simpl. split; [exact H1|]. rewrite H2. split; reflexivity.
Defined.

(** ** Resolving and the award of points *)

Lemma addPoints_addPoints a b u :
  addPoints a (addPoints b u) = addPoints (b + a) u.
Proof.
  rewrite !addPoints_eq. simpl.
  by rewrite <- !N.add_assoc.
Qed.

Lemma award_spec n uid st :
  reports (reportController.award n uid st) = reports st
  ∧ queue (reportController.award n uid st) = queue st
  ∧ emitted (reportController.award n uid st) = emitted st
  ∧ ∀ u, users (reportController.award n uid st) !! u =
         if decide (u = uid) then addPoints n <$> users st !! u
         else users st !! u.
Proof.
  unfold reportController.award.
  destruct (users st !! uid) as [usr|] eqn:E; simpl.
  - repeat split; try done. intros u. case_decide as Hu.
    + subst u. rewrite lookup_insert_eq, E. done.
    + by rewrite lookup_insert_ne.
  - repeat split; try done. intros u. case_decide; [subst; by rewrite E | done].
Qed.

Lemma occurrences_cons u a l :
  occurrences u (a :: l) =
  ((if decide (a = u) then 1 else 0) + occurrences u l)%N.
Proof.
  unfold occurrences. simpl. case_bool_decide; case_decide; try done.
  simpl length. lia.
Qed.

(** The loop over the upvoters credits 5 points per entry. *)
Lemma award_upvoters l : ∀ st,
  let st' := foldl (λ s upvoter, reportController.award 5 upvoter s) st l in
  reports st' = reports st ∧ queue st' = queue st ∧ emitted st' = emitted st
  ∧ ∀ u, users st' !! u = credit (5 * occurrences u l) <$> users st !! u.
Proof.
  induction l as [|a l IH]; intros st; simpl.
  - repeat split; try done. intros u. unfold credit. simpl.
    by destruct (users st !! u).
  - destruct (IH (reportController.award 5 a st)) as (Hr & Hq & He & Hu).
    destruct (award_spec 5 a st) as (Hr' & Hq' & He' & Hu').
    simpl in *. rewrite Hr, Hq, He. repeat split; try done.
    intros u. rewrite Hu, Hu', occurrences_cons.
    destruct (decide (a = u)) as [->|Hne].
    + rewrite decide_True by done.
      destruct (users st !! u) as [usr|]; simpl; [|done]. f_equal.
      unfold credit. case_decide as H0.
      * rewrite decide_False by lia.
        replace (5 * (1 + occurrences u l))%N with 5%N by lia. done.
      * rewrite decide_False by lia. rewrite addPoints_addPoints.
        f_equal. lia.
    + rewrite decide_False by done. by rewrite N.add_0_l.
Qed.

Lemma occurrences_populate st report u :
  is_Some (users st !! u) →
  occurrences u (reportController.populate_upvotedBy st report)
  = occurrences u (upvotedBy report).
Proof.
  intros Hu. unfold reportController.populate_upvotedBy.
  induction (upvotedBy report) as [|a l IH]; [done|].
  simpl. case_bool_decide as Ha.
  - rewrite !occurrences_cons, IH. done.
  - rewrite occurrences_cons, IH. rewrite decide_False; [done|].
    intros ->. done.
Qed.

(** The owner route on an [ACKNOWLEDGED] report of the caller: the report
    becomes [RESOLVED] and every user [u] is credited 20 points if [u] is
    the submitter plus 5 for each entry of [upvotedBy] naming [u], on
    [points] and on [monthlyPoints], with the badge of each recipient
    recomputed. *)
Lemma updateReportStatusResolve_awards id st r owner :
  isObjectId id = true → reports st !! ObjectId id = Some r →
  users st !! userId r = Some owner →
  reportStatus r = ACKNOWLEDGED →
  let out := reportController.updateReportStatusResolve (userId r) id st in
  fst out = mkResponse 200
              (JReport "Report resolved successfully! Points awarded."
                 (set_reportStatus RESOLVED r))
  ∧ reports (snd out)
    = <[ObjectId id := set_reportStatus RESOLVED r]> (reports st)
  ∧ ∀ u, users (snd out) !! u = credit (resolution_points r u) <$> users st !! u.
Proof.
  intros Hid Hr Ho Hs. simpl.
  unfold reportController.updateReportStatusResolve.
  rewrite findById_Some, Hr, Ho by done.
  rewrite (decide_False (P := userId r ≠ userId r)) by auto.
  rewrite (decide_False (P := reportStatus r ≠ ACKNOWLEDGED)) by auto.
  rewrite decide_True by (rewrite Hs; done).
  set (l := reportController.populate_upvotedBy st r).
  set (st1 := save_report (ObjectId id) (set_reportStatus RESOLVED r) st).
  destruct (award_upvoters l
              (reportController.award 20 (userId (set_reportStatus RESOLVED r)) st1))
    as (Hr' & _ & _ & Hu').
  destruct (award_spec 20 (userId (set_reportStatus RESOLVED r)) st1)
    as (Hr'' & _ & _ & Hu'').
  simpl in *. split; [done|]. split; [by rewrite Hr', Hr''|].
  intros u. rewrite Hu', Hu''. unfold resolution_points.
  destruct (users st !! u) as [usr|] eqn:Eu.
  - subst l. rewrite occurrences_populate by (rewrite Eu; eauto).
    case_decide as Hd; [|by rewrite N.add_0_l].
    simpl. apply (f_equal Some). unfold credit. case_decide as H0.
    + rewrite decide_False by lia. rewrite H0. done.
    + rewrite decide_False by lia. apply addPoints_addPoints.
  - by case_decide.
Qed.


(** A resolve request against a [RESOLVED] report changes nothing on
    either route, so no points are awarded. *)
Lemma resolve_RESOLVED_no_award user id st r :
  reports st !! ObjectId id = Some r → reportStatus r = RESOLVED →
  snd (reportController.resolveReport id st) = st
  ∧ snd (reportController.updateReportStatusResolve user id st) = st
  ∧ status (fst (reportController.resolveReport id st)) ≠ 200%nat
  ∧ status (fst (reportController.updateReportStatusResolve user id st)) ≠ 200%nat.
Proof.
  intros Hr Hs.
  unfold reportController.resolveReport,
    reportController.updateReportStatusResolve, findById.
  destruct (isObjectId id); [|done]. rewrite Hr, Hs. simpl.
  destruct (users st !! userId r); [|done].
  case_decide; [done|]. done.
Qed.

(** C1, where the code leaves the claim: the route handled by
    [resolveReport] moves a [SUBMITTED] or [ACKNOWLEDGED] report to
    [RESOLVED] with a 200 answer and writes no user document, so neither
    the submitter nor any upvoter is credited. *)
Theorem resolveReport_awards_nothing id st r :
  isObjectId id = true → reports st !! ObjectId id = Some r →
  reportStatus r ∈ [SUBMITTED; ACKNOWLEDGED] →
  let out := reportController.resolveReport id st in
  status (fst out) = 200%nat
  ∧ reports (snd out) !! ObjectId id = Some (set_reportStatus RESOLVED r)
  ∧ users (snd out) = users st.
Proof.
  intros Hid Hr Hs. simpl. unfold reportController.resolveReport.
  rewrite findById_Some, Hr by done.
  rewrite (bool_decide_eq_true_2 _ Hs). simpl.
  by rewrite lookup_insert_eq.
Qed.

Lemma resolveReport_awards_nothing_witness :
  let st := sampleState (pothole SUBMITTED 1 [bob]) in
  let out := reportController.resolveReport report1 st in
  status (fst out) = 200%nat
  ∧ reportStatus <$> reports (snd out) !! report1 = Some RESOLVED
  ∧ points <$> users (snd out) !! alice = Some 0%N
  ∧ points <$> users (snd out) !! bob = Some 0%N.
Proof.
  destruct (resolveReport_awards_nothing report1
              (sampleState (pothole SUBMITTED 1 [bob])) (pothole SUBMITTED 1 [bob]))
    as (H1 & H2 & H3); [reflexivity | reflexivity | set_solver |].
  change (ObjectId report1) with report1 in H2.
  simpl in *. split; [exact H1|]. rewrite H2, H3. repeat split.
Defined.

(** C2, where the two routes part: on an [ACKNOWLEDGED] report of the
    caller both leave the same report collection, but [resolveReport]
    leaves every user document as it was while
    [updateReportStatusResolve] credits the submitter at least 20 points. *)
Theorem resolve_routes_differ_on_reputation id st r owner :
  isObjectId id = true → reports st !! ObjectId id = Some r →
  users st !! userId r = Some owner →
  reportStatus r = ACKNOWLEDGED →
  let a := reportController.resolveReport id st in
  let b := reportController.updateReportStatusResolve (userId r) id st in
  status (fst a) = 200%nat ∧ status (fst b) = 200%nat
  ∧ reports (snd a) = reports (snd b)
  ∧ users (snd a) !! userId r = Some owner
  ∧ users (snd b) !! userId r
    = Some (addPoints (resolution_points r (userId r)) owner)
  ∧ (points owner + 20 ≤ points (addPoints (resolution_points r (userId r)) owner))%N
  ∧ users (snd a) ≠ users (snd b).
Proof.
  intros Hid Hr Ho Hs.
  destruct (updateReportStatusResolve_awards id st r owner Hid Hr Ho Hs)
    as (Hresp & Hrep & Hus).
  assert (reportStatus r ∈ [SUBMITTED; ACKNOWLEDGED]) as Hin
    by (rewrite Hs; set_solver).
  assert (reportController.resolveReport id st =
          (mkResponse 200 (JReport "Report resolved successfully"
                             (set_reportStatus RESOLVED r)),
           save_report (ObjectId id) (set_reportStatus RESOLVED r) st)) as Ea.
  { unfold reportController.resolveReport.
    rewrite findById_Some, Hr by done.
    by rewrite (bool_decide_eq_true_2 _ Hin). }
  simpl in *. rewrite Ea, Hresp, Hrep. simpl.
  assert (resolution_points r (userId r) ≠ 0%N) as Hpos.
  { unfold resolution_points. rewrite decide_True by done. lia. }
  assert (users
            (reportController.updateReportStatusResolve (userId r) id st).2
            !! userId r
          = Some (addPoints (resolution_points r (userId r)) owner)) as Eb.
  { rewrite Hus, Ho. simpl. unfold credit. by rewrite decide_False. }
  assert (points owner + 20
          ≤ points (addPoints (resolution_points r (userId r)) owner))%N as Hle.
  { rewrite addPoints_eq. simpl. unfold resolution_points.
    rewrite decide_True by done. lia. }
  repeat split; try done.
  intros Heq. rewrite <- Heq, Ho in Eb.
  injection Eb as Eb. rewrite <- Eb in Hle. lia.
Qed.

Lemma resolve_routes_differ_on_reputation_witness :
  let st := sampleState (pothole ACKNOWLEDGED 1 [bob]) in
  points <$> users (snd (reportController.resolveReport report1 st)) !! alice
    = Some 0%N
  ∧ points <$> users (snd (reportController.updateReportStatusResolve
                             alice report1 st)) !! alice
    = Some 20%N.
Proof.
  destruct (resolve_routes_differ_on_reputation report1
              (sampleState (pothole ACKNOWLEDGED 1 [bob]))
              (pothole ACKNOWLEDGED 1 [bob]) (newUser "Alice"))
    as (_ & _ & _ & Ha & Hb & _); [reflexivity..|].
  simpl in *. split.
  - rewrite Ha. reflexivity.
  - change (userId (pothole ACKNOWLEDGED 1 [bob])) with alice in Hb.
    rewrite Hb. reflexivity.
Defined.

(** The admin route's missing guard reopens a resolved report: resolved,
    acknowledged again and resolved again, the same report credits the
    submitter 40 points and the upvoter 10. *)
Example award_repeats_after_reacknowledge :
  let st0 := sampleState (pothole ACKNOWLEDGED 1 [bob]) in
  let st1 := snd (reportController.updateReportStatusResolve alice report1 st0) in
  let st2 := snd (adminController.updateReportAcknowledge sampleEnv admin1 report1 st1) in
  let st3 := snd (reportController.updateReportStatusResolve alice report1 st2) in
  points <$> users st1 !! alice = Some 20%N
  ∧ points <$> users st1 !! bob = Some 5%N
  ∧ reportStatus <$> reports st2 !! report1 = Some ACKNOWLEDGED
  ∧ points <$> users st3 !! alice = Some 40%N
  ∧ points <$> users st3 !! bob = Some 10%N.
Proof. repeat split. Qed.

(** ** The Reconciler *)

Lemma apply_updateData_idem c r :
  apply_updateData c (apply_updateData c r) = apply_updateData c r.
Proof.
  unfold apply_updateData. simpl.
  destruct (valid_title c), (present (cls_conflicts c)), (cls_title c);
    reflexivity.
Qed.

Lemma valid_title_spec c :
  valid_title c = true ↔ ∃ t, cls_title c = Some t ∧ t ≠ "" ∧ t ≠ "No title".
Proof.
  unfold valid_title. destruct (cls_title c) as [t|].
  - rewrite andb_true_iff, !negb_true_iff, !bool_decide_eq_false.
    split; [intros [? ?]; eauto | intros (t' & [= <-] & ? & ?); done].
  - split; [done | intros (t & ? & _); done].
Qed.

(** The state the Reconciler leaves: only the report named by the payload
    may change, and only by [apply_updateData]. *)
Lemma mlWebhook_state env req st :
  let st' := snd (reportController.mlWebhook env req st) in
  users st' = users st ∧ queue st' = queue st
  ∧ ∀ id, reports st' !! id = reconcile req id <$> reports st !! id.
Proof.
  simpl. unfold reportController.mlWebhook, reconcile, findByIdAndUpdate.
  destruct (wb_classification req) as [c|]; simpl.
  2: { repeat split. intros id. by destruct (reports st !! id). }
  destruct (isObjectId (wb_reportId req)); simpl.
  2: { repeat split. intros id. by destruct (reports st !! id). }
  destruct (reports st !! ObjectId (wb_reportId req)) as [r|] eqn:E; simpl.
  - destruct (io env); simpl; repeat split; intros id;
      (case_bool_decide as Hid;
       [subst id; rewrite lookup_insert_eq, E; done
       |rewrite lookup_insert_ne by done; by destruct (reports st !! id)]).
  - destruct (io env); simpl; repeat split; intros id;
      (case_bool_decide as Hid;
       [subst id; rewrite E; done | by destruct (reports st !! id)]).
Qed.

Lemma reconcile_idem req id r :
  reconcile req id (reconcile req id r) = reconcile req id r.
Proof.
  unfold reconcile. destruct (wb_classification req); [|done].
  destruct (_ && _); [apply apply_updateData_idem | done].
Qed.

Lemma reconcile_confined req id r :
  reportStatus (reconcile req id r) = reportStatus r
  ∧ upvotes (reconcile req id r) = upvotes r
  ∧ upvotedBy (reconcile req id r) = upvotedBy r
  ∧ userId (reconcile req id r) = userId r.
Proof.
  unfold reconcile. destruct (wb_classification req); [|done].
  destruct (_ && _); done.
Qed.

(** C5: the Reconciler is idempotent and confined to the classification
    fields.  Applying the same payload a second time leaves every report
    as the first application left it, in particular [mlSeverity],
    [mlDepartment], [department] and [severity]; an application changes
    no [reportStatus], [upvotes] or [upvotedBy] and no user document; an
    existing report named by a well-formed payload receives the
    classifier's severity and department; and [title] and [mlTitle] change
    only to a proposed title that is non-empty and not ["No title"]. *)
Theorem mlWebhook_idempotent_confined :
  (∀ env env' req st,
      let st1 := snd (reportController.mlWebhook env req st) in
      let st2 := snd (reportController.mlWebhook env' req st1) in
      reports st2 = reports st1
      ∧ ∀ id, mlSeverity <$> reports st2 !! id = mlSeverity <$> reports st1 !! id
            ∧ mlDepartment <$> reports st2 !! id = mlDepartment <$> reports st1 !! id
            ∧ department <$> reports st2 !! id = department <$> reports st1 !! id
            ∧ severity <$> reports st2 !! id = severity <$> reports st1 !! id)
  ∧ (∀ env req st,
      let st1 := snd (reportController.mlWebhook env req st) in
      users st1 = users st
      ∧ ∀ id, reportStatus <$> reports st1 !! id = reportStatus <$> reports st !! id
            ∧ upvotes <$> reports st1 !! id = upvotes <$> reports st !! id
            ∧ upvotedBy <$> reports st1 !! id = upvotedBy <$> reports st !! id)
  ∧ (∀ env req c st r,
      wb_classification req = Some c → isObjectId (wb_reportId req) = true →
      reports st !! ObjectId (wb_reportId req) = Some r →
      ∃ r1, reports (snd (reportController.mlWebhook env req st))
              !! ObjectId (wb_reportId req) = Some r1
            ∧ status (fst (reportController.mlWebhook env req st)) = 200%nat
            ∧ mlClassified r1 = true
            ∧ mlSeverity r1 = Some (cls_severity c) ∧ severity r1 = cls_severity c
            ∧ mlDepartment r1 = Some (cls_department c)
            ∧ department r1 = cls_department c
            ∧ (valid_title c = true →
               title r1 = default "" (cls_title c) ∧ mlTitle r1 = cls_title c))
  ∧ (∀ env req st id r r1,
      reports st !! id = Some r →
      reports (snd (reportController.mlWebhook env req st)) !! id = Some r1 →
      (title r1 = title r ∧ mlTitle r1 = mlTitle r)
      ∨ ∃ c t, wb_classification req = Some c ∧ cls_title c = Some t
               ∧ t ≠ "" ∧ t ≠ "No title" ∧ title r1 = t ∧ mlTitle r1 = Some t).
Proof.
  split; [|split; [|split]].
  - intros env env' req st. simpl.
    destruct (mlWebhook_state env req st) as (_ & _ & H1).
    destruct (mlWebhook_state env' req (snd (reportController.mlWebhook env req st)))
      as (_ & _ & H2).
    simpl in *.
    assert (reports (reportController.mlWebhook env' req
                       (reportController.mlWebhook env req st).2).2
            = reports (reportController.mlWebhook env req st).2) as E.
    { apply map_eq. intros id. rewrite H2, H1.
      destruct (reports st !! id); simpl; [|done]. by rewrite reconcile_idem. }
    split; [exact E|]. intros id. by rewrite E.
  - intros env req st. simpl.
    destruct (mlWebhook_state env req st) as (Hu & _ & H1). simpl in *.
    split; [exact Hu|]. intros id. rewrite H1.
    destruct (reports st !! id) as [r|]; simpl; [|done].
    destruct (reconcile_confined req id r) as (-> & -> & -> & _). done.
  - intros env req c st r Hc Hid Hr.
    destruct (mlWebhook_state env req st) as (_ & _ & H1). simpl in H1.
    exists (apply_updateData c r). split.
    { rewrite H1, Hr. simpl. unfold reconcile.
      rewrite Hc, Hid. by rewrite bool_decide_eq_true_2. }
    split.
    { unfold reportController.mlWebhook, findByIdAndUpdate.
      rewrite Hc, Hid, Hr. done. }
    simpl. do 5 (split; [done|]). intros Hv. rewrite Hv.
    apply valid_title_spec in Hv as (t & -> & _). done.
  - intros env req st id r r1 Hr Hr1.
    destruct (mlWebhook_state env req st) as (_ & _ & H1). simpl in H1.
    rewrite H1, Hr in Hr1. simpl in Hr1. injection Hr1 as <-.
    unfold reconcile. destruct (wb_classification req) as [c|]; [|by left].
    destruct (_ && _); [|by left].
    destruct (valid_title c) eqn:Hv.
    + right. apply valid_title_spec in Hv as Hv'.
      destruct Hv' as (t & Ht & Hne & Hns).
      exists c, t. unfold apply_updateData. simpl. rewrite Hv, Ht. done.
    + left. unfold apply_updateData. simpl. by rewrite Hv.
Qed.

Lemma mlWebhook_idempotent_confined_witness :
  let req := mkWebhookBody report1 (Some (sampleClassification (Some "No title"))) in
  let st := sampleState (pothole SUBMITTED 1 [bob]) in
  let out := reportController.mlWebhook sampleEnv req st in
  status (fst out) = 200%nat
  ∧ severity <$> reports (snd out) !! report1 = Some "HIGH"
  ∧ department <$> reports (snd out) !! report1 = Some "Roads"
  ∧ title <$> reports (snd out) !! report1 = Some "Pothole"
  ∧ reports (snd (reportController.mlWebhook sampleEnv req (snd out)))
    = reports (snd out).
Proof.
  destruct mlWebhook_idempotent_confined as (Hidem & _ & Happly & _).
  destruct (Happly sampleEnv
              (mkWebhookBody report1 (Some (sampleClassification (Some "No title"))))
              (sampleClassification (Some "No title"))
              (sampleState (pothole SUBMITTED 1 [bob]))
              (pothole SUBMITTED 1 [bob]))
    as (r1 & E & Hst & _); [reflexivity..|].
  simpl. split; [exact Hst|].
  split; [reflexivity|]. split; [reflexivity|]. split; [reflexivity|].
  apply Hidem.
Defined.

(** C4, where the code leaves the claim: for a payload whose [reportId] is
    a well-formed id of no stored report, [mlWebhook] answers 200 with
    [updatedReport: null], a success and not [NotFound]; no report and no
    user is modified. *)
Theorem mlWebhook_unknown_report_succeeds env req c st :
  wb_classification req = Some c →
  isObjectId (wb_reportId req) = true →
  reports st !! ObjectId (wb_reportId req) = None →
  let out := reportController.mlWebhook env req st in
  fst out = mkResponse 200
              (JWebhook "Webhook received and database updated successfully" None)
  ∧ is_success (fst out) = true
  ∧ is_client_error (fst out) = false
  ∧ ¬ NotFound (fst out)
  ∧ reports (snd out) = reports st
  ∧ users (snd out) = users st.
Proof.
  intros Hc Hid Hr. simpl.
  unfold reportController.mlWebhook, findByIdAndUpdate.
  rewrite Hc, Hid, Hr. simpl.
  destruct (io env); simpl; repeat split; done.
Qed.

Lemma mlWebhook_unknown_report_succeeds_witness :
  let req := mkWebhookBody report1 (Some (sampleClassification None)) in
  let st := mkState ∅ {[ alice := newUser "Alice" ]} [] [] in
  status (fst (reportController.mlWebhook sampleEnv req st)) = 200%nat
  ∧ reports (snd (reportController.mlWebhook sampleEnv req st)) = ∅.
Proof.
  destruct (mlWebhook_unknown_report_succeeds sampleEnv
              (mkWebhookBody report1 (Some (sampleClassification None)))
              (sampleClassification None)
              (mkState ∅ {[ alice := newUser "Alice" ]} [] []))
    as (H1 & _ & _ & _ & H2 & _); [reflexivity..|].
  simpl in *. rewrite H1, H2. split; reflexivity.
Defined.

(** ** The upvote toggle *)

Lemma filter_other_not_in (user : string) l :
  user ∉ l → List.filter (λ id, negb (bool_decide (id = user))) l = l.
Proof.
  induction l as [|a l IH]; [done|].
  intros Hn. simpl. rewrite bool_decide_eq_false_2.
  - simpl. f_equal. apply IH. intros ?. apply Hn. by right.
  - intros ->. apply Hn. by left.
Qed.

Lemma elem_of_filter_other (user u : string) l :
  u ∈ List.filter (λ id, negb (bool_decide (id = user))) l ↔ u ∈ l ∧ u ≠ user.
Proof.
  rewrite !list_elem_of_In, filter_In, negb_true_iff, bool_decide_eq_false.
  done.
Qed.


Lemma filter_other_NoDup (user : string) l :
  NoDup l → NoDup (List.filter (λ id, negb (bool_decide (id = user))) l).
Proof.
  induction 1 as [|a l Ha Hl IH]; simpl; [constructor|].
  destruct (negb _); [|done]. constructor; [|done].
  rewrite elem_of_filter_other. by intros [? _].
Qed.

Lemma filter_other_length (user : string) l :
  NoDup l → user ∈ l →
  S (length (List.filter (λ id, negb (bool_decide (id = user))) l)) = length l.
Proof.
  induction 1 as [|a l Ha Hl IH]; [by intros ?%elem_of_nil|].
  intros Hin. simpl. case_bool_decide as Heq; simpl.
  - subst a. by rewrite filter_other_not_in.
  - f_equal. apply IH. apply elem_of_cons in Hin as [->|]; done.
Qed.





(** The handler has no floor of its own: on a document with a count of 0
    although the caller is in [upvotedBy], which no run of the handlers
    produces, the removal stores and returns -1. *)
Example upvoteReport_removal_has_no_floor :
  let st := sampleState (pothole SUBMITTED 0 [bob]) in
  let out := reportController.upvoteReport bob report1 st in
  fst out = mkResponse 200 (JUpvotes "Report upvote removed successfully" (-1))
  ∧ upvotes <$> reports (snd out) !! report1 = Some (-1).
Proof. split; reflexivity. Qed.

(** ** Soft delete and the listing queries *)


Lemma elem_of_find f st d :
  d ∈ find f st ↔ reports st !! fst d = Some (snd d) ∧ matches f (snd d) = true.
Proof.
  unfold find. rewrite list_elem_of_In, filter_In, <- list_elem_of_In.
  destruct d as [id r]. by rewrite elem_of_map_to_list.
Qed.

Lemma matches_notDeleted f r :
  f_reportStatus f = Some (StatusNe "DELETED") →
  matches f r = true → reportStatus r ≠ DELETED.
Proof.
  unfold matches. intros ->. rewrite !andb_true_iff, negb_true_iff.
  intros [[[[H _] _] _] _] Hs. rewrite Hs in H. done.
Qed.

Lemma elem_of_limit {A} n (l : list A) x : x ∈ limit n l → x ∈ l.
Proof.
  unfold limit. case_decide as Hn; [done|]. intros Hx.
  rewrite <- (take_drop (Z.to_nat (Z.abs n)) l). apply elem_of_app. by left.
Qed.

Lemma elem_of_skip_limit {A} n m (l l' : list A) x :
  skip_limit n m l = Return l' → x ∈ l' → x ∈ l.
Proof.
  unfold skip_limit. destruct n as [n|], m as [m|]; try done.
  case_decide as Hn; [done|]. intros [= <-] Hx%elem_of_limit.
  rewrite <- (take_drop (Z.to_nat n) l). apply elem_of_app. by right.
Qed.

Lemma elem_of_sorted {A} (R : relation A) `{!RelDecision R} (l : list A) x :
  x ∈ merge_sort R l ↔ x ∈ l.
Proof. by rewrite merge_sort_Permutation. Qed.

Section listings.
Context {RT : Runtime}.

Lemma find_live f st d :
  f_reportStatus f = Some (StatusNe "DELETED") →
  d ∈ find f st →
  reports st !! fst d = Some (snd d) ∧ reportStatus (snd d) ≠ DELETED.
Proof.
  intros Hf [H1 H2]%elem_of_find. split; [done|].
  by eapply matches_notDeleted.
Qed.

Lemma find_geo_live g dept n st l d :
  reportController.find_geo g dept n st = Return l → d ∈ l →
  reports st !! fst d = Some (snd d) ∧ reportStatus (snd d) ≠ DELETED.
Proof.
  unfold reportController.find_geo. destruct (geoEval g); [|done].
  intros [= <-] H%elem_of_limit%elem_of_sorted.
  eapply find_live; [|eassumption]; done.
Qed.

Lemma lists_live_error st code msg :
  lists_live_reports st (respond code (JError msg) st).
Proof. split; [done|]. intros d []%elem_of_nil. Qed.

Lemma lists_live_found st msg l :
  (∀ d, d ∈ l →
        reports st !! fst d = Some (snd d) ∧ reportStatus (snd d) ≠ DELETED) →
  lists_live_reports st (respond 200 (JReports msg l) st).
Proof. intros H. split; [done|]. exact H. Qed.

Lemma lists_live_geo st g dept n msg err :
  lists_live_reports st
    match reportController.find_geo g dept n st with
    | Return l => respond 200 (JReports msg l) st
    | Throw => respond 500 (JError err) st
    end.
Proof.
  destruct (reportController.find_geo g dept n st) as [l|] eqn:E.
  - apply lists_live_found. intros d Hd. eapply find_geo_live; eassumption.
  - apply lists_live_error.
Qed.

Lemma lists_live_page st f R `{!RelDecision R} n m msg err :
  f_reportStatus f = Some (StatusNe "DELETED") →
  lists_live_reports st
    match skip_limit n m (merge_sort R (find f st)) with
    | Return l => respond 200 (JReports msg l) st
    | Throw => respond 500 (JError err) st
    end.
Proof.
  intros Hf. destruct (skip_limit _ _ _) as [l|] eqn:E.
  - apply lists_live_found. intros d Hd.
    eapply elem_of_skip_limit in Hd; [|exact E].
    apply elem_of_sorted in Hd. eapply find_live; eassumption.
  - apply lists_live_error.
Qed.

(** The listing handlers of the report controller that always carry the
    exclusion of [DELETED]. *)
Lemma report_listings_exclude_deleted st :
  (∀ lat lng radius,
      lists_live_reports st (reportController.getNearbyReports lat lng radius st))
  ∧ (∀ swLat swLng neLat neLng,
      lists_live_reports st
        (reportController.getReportsInBounds swLat swLng neLat neLng st))
  ∧ (∀ lat lng dept radius,
      lists_live_reports st
        (reportController.getNearbyReportsByDepartment lat lng dept radius st))
  ∧ (∀ user, lists_live_reports st (reportController.getUserReports user st))
  ∧ (∀ user q,
      lists_live_reports st (reportController.getUserReportsForMobile user q st)).
Proof.
  split; [|split; [|split; [|split]]].
  - intros lat lng radius. unfold reportController.getNearbyReports.
    destruct (_ || _); [apply lists_live_error|].
    destruct (_ || _); [apply lists_live_error|].
    apply lists_live_geo.
  - intros swLat swLng neLat neLng. unfold reportController.getReportsInBounds.
    destruct (_ || _); [apply lists_live_error|].
    apply lists_live_geo.
  - intros lat lng dept radius.
    unfold reportController.getNearbyReportsByDepartment.
    destruct (_ || _); [apply lists_live_error|].
    apply lists_live_geo.
  - intros user. unfold reportController.getUserReports.
    apply lists_live_found. intros d Hd%elem_of_sorted.
    eapply find_live; [|eassumption]; done.
  - intros user q. unfold reportController.getUserReportsForMobile.
    by apply lists_live_page.
Qed.

(** [getAllReports] and [getAllReportsForMobile] carry the exclusion
    only while the request gives no [status]. *)
Lemma all_reports_exclude_deleted_by_default q st :
  present (q_status q) = false →
  lists_live_reports st (reportController.getAllReports q st)
  ∧ lists_live_reports st (reportController.getAllReportsForMobile q st).
Proof.
  intros Hq. split.
  - unfold reportController.getAllReports. apply lists_live_page.
    unfold reportController.list_filter. simpl. by rewrite Hq.
  - unfold reportController.getAllReportsForMobile. apply lists_live_page.
    unfold reportController.list_filter. simpl. by rewrite Hq.
Qed.
End listings.

(** C9, where the code leaves the claim: the admin controller's
    [getAllReports] and [getReportLocations] query without a filter, so
    every stored report is listed whatever its status, a [DELETED] one
    included. *)
Theorem admin_listings_include_deleted st id r :
  reports st !! id = Some r →
  status (fst (adminController.getAllReports st)) = 200%nat
  ∧ (id, r) ∈ results (fst (adminController.getAllReports st))
  ∧ ∃ l, fst (adminController.getReportLocations st)
           = mkResponse 200 (JLocations l)
         ∧ mkLocation (coordinates r !! 1%nat) (coordinates r !! 0%nat)
             (department r) (severity r) (title r) ∈ l.
Proof.
  intros Hr.
  assert ((id, r) ∈ find (mkFilter None None None None None) st) as Hin.
  { apply elem_of_find. simpl. split; [done|]. reflexivity. }
  split; [done|]. split.
  - unfold adminController.getAllReports, results. simpl.
    by apply elem_of_sorted.
  - eexists. split; [reflexivity|].
    apply list_elem_of_fmap. exists (id, r). split; [done|exact Hin].
Qed.

Lemma admin_listings_include_deleted_witness :
  findById (reports deletedState) report1 = Return (Some (pothole DELETED 0 []))
  ∧ (report1, pothole DELETED 0 [])
      ∈ results (fst (adminController.getAllReports deletedState)).
Proof.
  split; [reflexivity|].
  apply (admin_listings_include_deleted deletedState report1
           (pothole DELETED 0 [])). reflexivity.
Defined.

(** The same deleted report is listed by the report controller's
    [getAllReports] only on request, with [status=DELETED], and by none of
    its other listings. *)
Example deleted_report_in_listings :
  results (fst (reportController.getAllReports (RT := sampleRuntime)
                  (mkListQuery None None None None None) deletedState)) = []
  ∧ results (fst (reportController.getAllReports (RT := sampleRuntime)
                    (mkListQuery (Some "DELETED") None None None None)
                    deletedState))
    = [(report1, pothole DELETED 0 [])]
  ∧ results (fst (reportController.getNearbyReports (RT := sampleRuntime)
                    (Some "12") (Some "77") None deletedState)) = []
  ∧ results (fst (reportController.getNearbyReports (RT := sampleRuntime)
                    (Some "12") (Some "77") None
                    (sampleState (pothole SUBMITTED 0 []))))
    = [(report1, pothole SUBMITTED 0 [])].
Proof. repeat split. Qed.

(** * Further properties of the code *)

(** ** Badges and the monthly counter *)




(** [updateBadge] reports a change exactly when the stored badge differs
    from the one the points give, and a second call changes nothing. *)
Theorem updateBadge_settles u :
  (snd (updateBadge u) = negb (bool_decide (badge u = newBadge (points u))))
  ∧ updateBadge (fst (updateBadge u)) = (fst (updateBadge u), false)
  ∧ points (fst (updateBadge u)) = points u
  ∧ monthlyPoints (fst (updateBadge u)) = monthlyPoints u.
Proof.
  unfold updateBadge. destruct (decide (badge u = newBadge (points u))) as [E|E].
  - rewrite bool_decide_eq_true_2 by done. simpl.
    rewrite decide_True by done. done.
  - rewrite bool_decide_eq_false_2 by done. simpl.
    rewrite decide_True by done. done.
Qed.

Lemma accountAddPoints_fold ns : ∀ a,
  let a' := foldl (λ acc k, accountAddPoints k acc) a ns in
  points (reputation a') = (points (reputation a) + foldr N.add 0 ns)%N
  ∧ monthlyPoints (reputation a')
    = (monthlyPoints (reputation a) + foldr N.add 0 ns)%N
  ∧ lastMonthlyReset a' = lastMonthlyReset a
  ∧ loginAttempts a' = loginAttempts a ∧ lockUntil a' = lockUntil a.
Proof.
  induction ns as [|k ns IH]; intros a; simpl.
  - rewrite !N.add_0_r. done.
  - destruct (IH (accountAddPoints k a)) as (H1 & H2 & H3 & H4 & H5).
    simpl in *. rewrite H1, H2, H3, H4, H5, !addPoints_eq. simpl.
    repeat split; lia.
Qed.

(** After [resetMonthlyPoints] the monthly counter holds exactly the
    points awarded since, while [points] keeps the whole history; the reset
    leaves points, badge and the login fields alone. *)
Theorem monthly_counter_since_reset t a ns :
  let a0 := resetMonthlyPoints t a in
  let a' := foldl (λ acc k, accountAddPoints k acc) a0 ns in
  points (reputation a0) = points (reputation a)
  ∧ badge (reputation a0) = badge (reputation a)
  ∧ monthlyPoints (reputation a0) = 0%N
  ∧ monthlyPoints (reputation a') = foldr N.add 0%N ns
  ∧ points (reputation a') = (points (reputation a) + foldr N.add 0 ns)%N
  ∧ lastMonthlyReset a' = t.
Proof.
  simpl.
  destruct (accountAddPoints_fold ns (resetMonthlyPoints t a))
    as (H1 & H2 & H3 & _).
  simpl in *. rewrite H1, H2, H3. repeat split.
Qed.

(** ** Login attempts *)

Lemma failedLogins_below_five ts : ∀ a,
  lockUntil a = None → (0 ≤ loginAttempts a)%Z →
  (loginAttempts a + Z.of_nat (length ts) < 5)%Z →
  lockUntil (failedLogins ts a) = None
  ∧ loginAttempts (failedLogins ts a) = (loginAttempts a + Z.of_nat (length ts))%Z.
Proof.
  unfold failedLogins.
  induction ts as [|[[t1 t2] t3] ts IH]; intros a Hl H0 Hlt; simpl.
  - split; [done|lia].
  - simpl length in Hlt.
    assert (incLoginAttempts t1 t2 t3 a
            = mkAccount (reputation a) (lastMonthlyReset a) (lastLogin a)
                (loginAttempts a + 1) None) as E.
    { unfold incLoginAttempts. rewrite Hl.
      rewrite bool_decide_eq_false_2 by lia. done. }
    rewrite E. destruct (IH (mkAccount (reputation a) (lastMonthlyReset a)
                               (lastLogin a) (loginAttempts a + 1) None))
      as [H1 H2]; simpl; try done; try lia.
    split; [exact H1|]. rewrite H2. simpl. lia.
Qed.

(** An account without failures and without a lock stays unlocked
    through four failed logins, and the fifth locks it for two hours
    from that moment. *)
Theorem lockout_on_fifth_failure ts t1 t2 t3 a :
  loginAttempts a = 0 → lockUntil a = None →
  length ts = 4%nat →
  (∀ k, (k ≤ 4)%nat →
        lockUntil (failedLogins (take k ts) a) = None
        ∧ loginAttempts (failedLogins (take k ts) a) = Z.of_nat k)
  ∧ lockUntil (failedLogins (ts ++ [(t1, t2, t3)]) a) = Some (t3 + 7200000)%Z
  ∧ loginAttempts (failedLogins (ts ++ [(t1, t2, t3)]) a) = 5
  ∧ ∀ t, (t < t3 + 7200000)%Z →
         isLocked t (failedLogins (ts ++ [(t1, t2, t3)]) a) = true.
Proof.
  intros Ha Hl Hlen.
  assert (lockUntil (failedLogins ts a) = None
          ∧ loginAttempts (failedLogins ts a) = 4) as [Hl4 Ha4].
  { destruct (failedLogins_below_five ts a) as [H1 H2]; try done; try lia.
    split; [done|]. rewrite H2. lia. }
  assert (failedLogins (ts ++ [(t1, t2, t3)]) a
          = incLoginAttempts t1 t2 t3 (failedLogins ts a)) as E.
  { unfold failedLogins. by rewrite foldl_app. }
  split.
  - intros k Hk.
    destruct (failedLogins_below_five (take k ts) a) as [H1 H2]; try done.
    + lia.
    + rewrite length_take. lia.
    + split; [done|]. rewrite H2, length_take. lia.
  - rewrite E. unfold incLoginAttempts, isLocked. rewrite Hl4, Ha4. simpl.
    repeat split. intros t Ht. by apply bool_decide_eq_true_2.
Qed.

Lemma lockout_on_fifth_failure_witness :
  let a := mkAccount (newUser "Alice") 0 None 0 None in
  let ts := [(10, 10, 10); (20, 20, 20); (30, 30, 30); (40, 40, 40)]%Z in
  lockUntil (failedLogins ts a) = None
  ∧ lockUntil (failedLogins (ts ++ [(50, 50, 51)]%Z) a) = Some 7200051%Z.
Proof.
  destruct (lockout_on_fifth_failure
              [(10, 10, 10); (20, 20, 20); (30, 30, 30); (40, 40, 40)]%Z
              50 50 51 (mkAccount (newUser "Alice") 0 None 0 None))
    as (H4 & H5 & _); [reflexivity..|].
  simpl. split; [reflexivity | exact H5].
Defined.

(** A failed login while the lock runs counts but does not extend the
    lock; the first one after the lock has run out clears it and restarts
    the count at 1; [resetLoginAttempts] clears both. *)
Theorem lock_lifecycle a l :
  lockUntil a = Some l →
  (∀ t1 t2 t3, (t1 ≤ l)%Z → (t2 < l)%Z →
      lockUntil (incLoginAttempts t1 t2 t3 a) = Some l
      ∧ loginAttempts (incLoginAttempts t1 t2 t3 a) = (loginAttempts a + 1)%Z)
  ∧ (∀ t1 t2 t3, (l < t1)%Z →
      lockUntil (incLoginAttempts t1 t2 t3 a) = None
      ∧ loginAttempts (incLoginAttempts t1 t2 t3 a) = 1
      ∧ ∀ t, isLocked t (incLoginAttempts t1 t2 t3 a) = false)
  ∧ (∀ t, lockUntil (resetLoginAttempts t a) = None
          ∧ loginAttempts (resetLoginAttempts t a) = 0
          ∧ lastLogin (resetLoginAttempts t a) = Some t
          ∧ reputation (resetLoginAttempts t a) = reputation a).
Proof.
  intros Hl. split; [|split].
  - intros t1 t2 t3 H1 H2. unfold incLoginAttempts, isLocked. rewrite Hl.
    rewrite bool_decide_eq_false_2 by lia.
    rewrite (bool_decide_eq_true_2 (t2 < l)%Z) by done.
    rewrite andb_false_r. done.
  - intros t1 t2 t3 H1. unfold incLoginAttempts. rewrite Hl.
    rewrite bool_decide_eq_true_2 by done. done.
  - done.
Qed.

Lemma lock_lifecycle_witness :
  let a := mkAccount (newUser "Alice") 0 None 5 (Some 7200051%Z) in
  lockUntil (incLoginAttempts 100 100 100 a) = Some 7200051%Z
  ∧ loginAttempts (incLoginAttempts 100 100 100 a) = 6
  ∧ loginAttempts (incLoginAttempts 7200052 7200052 7200052 a) = 1.
Proof.
  destruct (lock_lifecycle (mkAccount (newUser "Alice") 0 None 5 (Some 7200051%Z))
              7200051%Z) as (Hrun & Hout & _); [reflexivity|].
  destruct (Hrun 100 100 100) as [H1 H2]; [lia | lia |].
  destruct (Hout 7200052 7200052 7200052) as (_ & H3 & _); [lia|].
  simpl. split; [exact H1|]. split; [exact H2 | exact H3].
Defined.

(** ** The Redis URL and the queue *)

Lemma startsWith_split p : ∀ s,
  mlService.startsWith p s = true →
  s = p ++ mlService.skip (String.length p) s.
Proof.
  induction p as [|a p IH]; intros s; simpl; [done|].
  destruct s as [|b s]; [done|].
  intros [Hab Hp]%andb_true_iff. apply Ascii.eqb_eq in Hab as ->.
  change (String b s = String b (p ++ mlService.skip (String.length p) s)).
  f_equal. by apply IH.
Qed.

Lemma replace_at_start p r s :
  mlService.startsWith p s = true →
  mlService.replace p r s = r ++ mlService.skip (String.length p) s.
Proof. intros H. destruct s; simpl; simpl in H; by rewrite H. Qed.

(** The client's URL and TLS flag.  An Upstash URL with the plain scheme
    is moved to [rediss://] with the rest of the URL kept, and TLS is on;
    any other URL is used as given, with TLS on exactly when it starts
    with [rediss://]; without [REDIS_URL] the client goes to the local
    server without TLS; and a URL the constructor produced is left alone
    when given back to it. *)
Theorem redisUrl_upgrade :
  (∀ url rest,
      url = "redis://" ++ rest → mlService.includes "upstash.io" url = true →
      mlService.redisUrl (Some url) = "rediss://" ++ rest
      ∧ mlService.isSecure (Some url) = true)
  ∧ (∀ url,
      url ≠ "" →
      mlService.includes "upstash.io" url = false
      ∨ mlService.startsWith "redis://" url = false →
      mlService.redisUrl (Some url) = url
      ∧ mlService.isSecure (Some url) = mlService.startsWith "rediss://" url)
  ∧ (mlService.redisUrl None = "redis://localhost:6379"
     ∧ mlService.redisUrl (Some "") = "redis://localhost:6379"
     ∧ mlService.isSecure None = false)
  ∧ (∀ url, url ≠ "" →
      mlService.redisUrl (Some (mlService.redisUrl (Some url)))
      = mlService.redisUrl (Some url)).
Proof.
  assert (∀ url rest,
      url = "redis://" ++ rest → mlService.includes "upstash.io" url = true →
      mlService.redisUrl (Some url) = "rediss://" ++ rest) as Hup.
  { intros url rest -> Hinc. unfold mlService.redisUrl.
    change (or_else (Some ("redis://" ++ rest)) "redis://localhost:6379")
      with ("redis://" ++ rest).
    rewrite Hinc.
    change (mlService.startsWith "redis://" ("redis://" ++ rest)) with true.
    simpl andb. cbv iota.
    rewrite replace_at_start by reflexivity. reflexivity. }
  assert (∀ url, url ≠ "" →
      mlService.includes "upstash.io" url = false
      ∨ mlService.startsWith "redis://" url = false →
      mlService.redisUrl (Some url) = url) as Hkeep.
  { intros url Hne Hno. unfold mlService.redisUrl, or_else.
    rewrite decide_False by done.
    destruct Hno as [-> | ->]; [done|]. by rewrite andb_false_r. }
  split; [|split; [|split]].
  - intros url rest Hurl Hinc. split; [by apply Hup|].
    unfold mlService.isSecure. rewrite (Hup url rest) by done. reflexivity.
  - intros url Hne Hno. split; [by apply Hkeep|].
    unfold mlService.isSecure. by rewrite Hkeep.
  - repeat split.
  - intros url Hne.
    destruct (mlService.includes "upstash.io" url) eqn:Hinc;
      [destruct (mlService.startsWith "redis://" url) eqn:Hst|].
    + apply startsWith_split in Hst as Hsplit. simpl String.length in Hsplit.
      rewrite (Hup url _ Hsplit Hinc).
      apply Hkeep; [done|]. right. reflexivity.
    + rewrite (Hkeep url) by auto. apply Hkeep; auto.
    + rewrite (Hkeep url) by auto. apply Hkeep; auto.
Qed.

Lemma redisUrl_upgrade_witness :
  mlService.redisUrl (Some "redis://default:pw@eu1-alive-1234.upstash.io:6379")
  = "rediss://default:pw@eu1-alive-1234.upstash.io:6379"
  ∧ mlService.isSecure (Some "redis://default:pw@eu1-alive-1234.upstash.io:6379")
    = true
  ∧ mlService.redisUrl (Some "redis://cache.internal:6379")
    = "redis://cache.internal:6379".
Proof.
  destruct redisUrl_upgrade as (Hup & Hkeep & _ & _).
  destruct (Hup "redis://default:pw@eu1-alive-1234.upstash.io:6379"
              "default:pw@eu1-alive-1234.upstash.io:6379")
    as [H1 H2]; [reflexivity | reflexivity |].
  destruct (Hkeep "redis://cache.internal:6379") as [H3 _];
    [discriminate | left; reflexivity |].
  split; [exact H1|]. split; [exact H2 | exact H3].
Defined.

(** ** More on report creation *)

Section createReport_more.
Context {RT : Runtime}.

(** Whatever the request, [createReport] leaves every user, every stored
    report and the emitted events as they were, adds at most one report
    (under the fresh id) and at most one job, and changes nothing at all
    unless it answers 201. *)
Theorem createReport_preserves env req st :
  let out := reportController.createReport env req st in
  users (snd out) = users st
  ∧ emitted (snd out) = emitted st
  ∧ (∀ id r, reports st !! id = Some r → reports (snd out) !! id = Some r)
  ∧ (∀ id, id ≠ newObjectId env → reports (snd out) !! id = reports st !! id)
  ∧ (queue (snd out) = queue st
     ∨ ∃ j, queue (snd out) = j :: queue st ∧ job_reportId j = newObjectId env)
  ∧ (status (fst out) ≠ 201%nat → snd out = st)
  ∧ (status (fst out) = 201%nat → is_Some (reports (snd out) !! newObjectId env)).
Proof.
  simpl. unfold reportController.createReport.
  destruct (negb _ || negb _); [by repeat split; auto|].
  destruct (_ || _); [by repeat split; auto|].
  unfold Report_create.
  destruct (_ && _ && bool_decide _) eqn:E; [|by repeat split; auto].
  apply andb_true_iff in E as [_ Hfresh%bool_decide_eq_true].
  assert (∀ rep : Report,
     (∀ id r, reports st !! id = Some r →
              <[newObjectId env := rep]> (reports st) !! id = Some r)
     ∧ (∀ id, id ≠ newObjectId env →
              <[newObjectId env := rep]> (reports st) !! id = reports st !! id)
     ∧ is_Some (<[newObjectId env := rep]> (reports st) !! newObjectId env))
    as Hrep.
  { intros rep. split; [|split].
    - intros id r Hr. rewrite lookup_insert_ne; [done|]. intros <-. congruence.
    - intros id Hne. by rewrite lookup_insert_ne.
    - rewrite lookup_insert_eq. eauto. }
  unfold queueClassificationJob.
  destruct (mlDisabled env), (redisUp env); simpl;
    (split; [done|]); (split; [done|]); (split; [apply Hrep|]);
    (split; [apply Hrep|]); (split; [|split; [done|intros _; apply Hrep]]);
    try (by left).
  right. eexists. split; reflexivity.
Qed.

(** A report created from numeric coordinates can be read back, by any
    spelling of its id: it is stored under the fresh id as [SUBMITTED], unclassified, with no
    upvotes, owned by the caller, under the default title and department
    when none is given; [getReportLocations] returns the latitude and the
    longitude the request gave; and its job heads the queue when
    classification is enabled and Redis is up. *)
Theorem createReport_read_back env req st lat lng :
  cr_latitude req = JNum lat → cr_longitude req = JNum lng →
  ¬ (lat == 0)%Q → ¬ (lng == 0)%Q →
  within (JNum lat) (-90) 90 → within (JNum lng) (-180) 180 →
  or_else (cr_category req) "Processing" ∈ departments →
  reports st !! newObjectId env = None →
  let out := reportController.createReport env req st in
  ∃ report,
    fst out = mkResponse 201 (JReport "Report created successfully" report)
    ∧ reports (snd out) !! newObjectId env = Some report
    ∧ (∀ id, isObjectId id = true → ObjectId id = newObjectId env →
             findById (reports (snd out)) id = Return (Some report))
    ∧ coordinates report = [Finite lng; Finite lat]
    ∧ reportStatus report = SUBMITTED ∧ mlClassified report = false
    ∧ upvotes report = 0 ∧ upvotedBy report = [] ∧ severity report = "MEDIUM"
    ∧ userId report = cr_userId req
    ∧ title report = or_else (cr_title req) "Processing..."
    ∧ department report = or_else (cr_category req) "Processing"
    ∧ (∃ l, fst (adminController.getReportLocations (snd out))
              = mkResponse 200 (JLocations l)
            ∧ ∃ loc, loc ∈ l ∧ loc_lat loc = Some (Finite lat)
                     ∧ loc_lng loc = Some (Finite lng)
                     ∧ loc_title loc = title report)
    ∧ (mlDisabled env = false → redisUp env = true →
       head (queue (snd out))
       = Some (mkJob (newObjectId env) (description report) (image_url report)
                 (title report) (now env))
       ∧ mlService.getQueueStatus env (snd out)
         = S (mlService.getQueueStatus env st)).
Proof.
  intros Hlat Hlng Hz1 Hz2 Hw1 Hw2 Hdep Hfresh. simpl.
  unfold reportController.createReport.
  rewrite Hlat, Hlng.
  rewrite (proj2 (truthy_JNum lat) Hz1), (proj2 (truthy_JNum lng) Hz2).
  simpl negb. simpl orb at 1. cbv iota. simpl reportController.ToNumber.
  rewrite (proj2 (out_of_range_Finite lat (-90) 90) Hw1).
  rewrite (proj2 (out_of_range_Finite lng (-180) 180) Hw2).
  simpl orb. cbv iota. cbv zeta.
  unfold Report_create. simpl department. simpl coordinates.
  rewrite (bool_decide_eq_true_2 _ Hdep).
  assert (index_accepts [Finite lng; Finite lat] = true) as ->.
  { destruct Hw1, Hw2. simpl. rewrite !andb_true_iff, !Qle_bool_iff. done. }
  rewrite (bool_decide_eq_true_2 _ Hfresh). simpl andb. cbv iota.
  eexists. split; [reflexivity|].
  assert (∀ st2 rep, reports st2 = <[newObjectId env := rep]> (reports st) →
            reports st2 !! newObjectId env = Some rep) as Hlook.
  { intros st2 rep ->. apply lookup_insert_eq. }
  assert (∀ rep, reports (if mlDisabled env
                           then set_reports (<[newObjectId env := rep]> (reports st)) st
                           else queueClassificationJob env (newObjectId env) rep
                                  (set_reports (<[newObjectId env := rep]> (reports st)) st))
                  !! newObjectId env = Some rep) as Hnew.
  { intros rep. apply Hlook.
    unfold queueClassificationJob. by destruct (mlDisabled env), (redisUp env). }
  split; [apply Hnew|].
  split.
  { intros id Hid Hcast. rewrite findById_Some, Hcast by done.
    f_equal. apply Hnew. }
  do 9 (split; [done|]).
  split.
  - eexists. split; [reflexivity|].
    eexists. split.
    + apply list_elem_of_fmap. eexists (newObjectId env, _).
      split; [reflexivity|].
      apply elem_of_find. simpl. split; [|reflexivity].
      apply Hlook.
      unfold queueClassificationJob. by destruct (mlDisabled env), (redisUp env).
    + simpl. done.
  - intros -> Hredis. unfold mlService.getQueueStatus, queueClassificationJob.
    rewrite Hredis. done.
Qed.

(** Numeric coordinates other than 0 that leave the ranges are answered
    400 "Invalid coordinates"; a category outside the [department] enum is
    answered 500 by the schema validation; neither stores or queues
    anything. *)
Theorem createReport_rejections env req st lat lng :
  cr_latitude req = JNum lat → cr_longitude req = JNum lng →
  ¬ (lat == 0)%Q → ¬ (lng == 0)%Q →
  (¬ (within (JNum lat) (-90) 90 ∧ within (JNum lng) (-180) 180) →
   reportController.createReport env req st
   = (mkResponse 400 (JError "Invalid coordinates"), st))
  ∧ (within (JNum lat) (-90) 90 → within (JNum lng) (-180) 180 →
     or_else (cr_category req) "Processing" ∉ departments →
     status (fst (reportController.createReport env req st)) = 500%nat
     ∧ snd (reportController.createReport env req st) = st).
Proof.
  intros Hlat Hlng Hz1 Hz2.
  unfold reportController.createReport. rewrite Hlat, Hlng.
  rewrite (proj2 (truthy_JNum lat) Hz1), (proj2 (truthy_JNum lng) Hz2).
  simpl negb. simpl orb at 1. cbv iota. simpl reportController.ToNumber.
  split.
  - intros Hout.
    destruct (reportController.out_of_range (Finite lat) (-90) 90) eqn:E1; [done|].
    destruct (reportController.out_of_range (Finite lng) (-180) 180) eqn:E2; [done|].
    exfalso. apply Hout. split; by apply out_of_range_Finite.
  - intros Hw1 Hw2 Hdep.
    rewrite (proj2 (out_of_range_Finite lat (-90) 90) Hw1).
    rewrite (proj2 (out_of_range_Finite lng (-180) 180) Hw2).
    simpl orb. cbv iota. cbv zeta. unfold Report_create. simpl department.
    rewrite (bool_decide_eq_false_2 _ Hdep). done.
Qed.
End createReport_more.

Lemma createReport_read_back_witness :
  let req := createAt (JNum (1297 # 100)) (JNum (7759 # 100)) in
  let out := reportController.createReport (RT := sampleRuntime) sampleEnv req
               (sampleState (pothole SUBMITTED 0 [])) in
  status (fst out) = 201%nat
  ∧ coordinates <$> reports (snd out) !! newObjectId sampleEnv
    = Some [Finite (7759 # 100); Finite (1297 # 100)]
  ∧ length (queue (snd out)) = 1%nat.
Proof.
  destruct (createReport_read_back (RT := sampleRuntime) sampleEnv
              (createAt (JNum (1297 # 100)) (JNum (7759 # 100)))
              (sampleState (pothole SUBMITTED 0 [])) (1297 # 100) (7759 # 100))
    as (report & E & _); [reflexivity | reflexivity | | | | | | reflexivity |].
  - intros H. discriminate H.
  - intros H. discriminate H.
  - split; vm_compute; discriminate.
  - split; vm_compute; discriminate.
  - vm_compute. apply list_elem_of_In. simpl. tauto.
  - simpl in *. rewrite E. repeat split.
Defined.

Lemma createReport_rejections_witness :
  reportController.createReport (RT := sampleRuntime) sampleEnv
    (createAt (JNum 95) (JNum (7759 # 100))) (sampleState (pothole SUBMITTED 0 []))
  = (mkResponse 400 (JError "Invalid coordinates"),
     sampleState (pothole SUBMITTED 0 [])).
Proof.
  destruct (createReport_rejections (RT := sampleRuntime) sampleEnv
              (createAt (JNum 95) (JNum (7759 # 100)))
              (sampleState (pothole SUBMITTED 0 [])) 95 (7759 # 100))
    as [H _]; [reflexivity | reflexivity | | |].
  - intros H. discriminate H.
  - intros H. discriminate H.
  - apply H. intros [[_ Hle] _]. vm_compute in Hle. by apply Hle.
Defined.

(** ** The lifecycle over runs of requests *)

(** What every effect keeps. *)
Lemma effect_frame admin r r' :
  effect admin r r' →
  userId r' = userId r ∧ coordinates r' = coordinates r
  ∧ createdAt r' = createdAt r ∧ description r' = description r
  ∧ (upvotes_consistent r → upvotes_consistent r')
  ∧ (admin = false →
     (status_rank (reportStatus r) ≤ status_rank (reportStatus r'))%nat
     ∧ isAcknowledged r' = isAcknowledged r
     ∧ acknowledgedAt r' = acknowledgedAt r
     ∧ acknowledgedBy r' = acknowledgedBy r).
Proof.
  unfold upvotes_consistent.
  destruct 1 as [|s Hs|user Hin|user Hout|c|t adminId Hadm]; simpl;
    (do 4 (split; [done|])); (split; [|intros Hadmin]).
  - done.
  - done.
  - done.
  - done.
  - intros [Hc Hn]. split; [|by apply filter_other_NoDup].
    rewrite Hc. rewrite <- (filter_other_length user (upvotedBy r)) by done. lia.
  - done.
  - intros [Hc Hn]. split.
    + rewrite Hc, length_app. simpl. lia.
    + apply NoDup_app. split; [done|]. split.
      * intros x Hx ->%list_elem_of_singleton. done.
      * apply NoDup_singleton.
  - done.
  - done.
  - done.
  - done.
  - congruence.
Qed.

(** Writing one document has the effect on that document and none on
    the others. *)
Lemma insert_effect admin (m : gmap string Report) id0 r0 r0' id r :
  m !! id0 = Some r0 → effect admin r0 r0' → m !! id = Some r →
  ∃ r', <[id0 := r0']> m !! id = Some r' ∧ effect admin r r'.
Proof.
  intros H0 He Hr. destruct (decide (id = id0)) as [->|Hne].
  - rewrite lookup_insert_eq. exists r0'. split; [done|]. congruence.
  - rewrite lookup_insert_ne by done. exists r. split; [done|constructor].
Qed.

Section Lifecycle.
Context {RT : Runtime}.

Lemma createReport_keeps_reports env req st id r :
  reports st !! id = Some r →
  reports (snd (reportController.createReport env req st)) !! id = Some r.
Proof.
  intros Hr. unfold reportController.createReport.
  destruct (negb _ || negb _); [done|].
  destruct (_ || _); [done|].
  unfold Report_create.
  destruct (_ && _ && bool_decide _) eqn:E; [|done].
  apply andb_true_iff in E as [_ Hfresh%bool_decide_eq_true].
  assert (id ≠ newObjectId env) as Hne by (intros ->; congruence).
  unfold queueClassificationJob.
  destruct (mlDisabled env), (redisUp env); simpl; by rewrite lookup_insert_ne.
Qed.

(** The effect of one request on any stored report. *)
Lemma handle_effect q st id r :
  reports st !! id = Some r →
  ∃ r', reports (snd (handle q st)) !! id = Some r'
        ∧ effect (negb (report_route q)) r r'.
Proof.
  intros Hr.
  assert (∃ r', reports st !! id = Some r' ∧ effect (negb (report_route q)) r r')
    as Hsame by (exists r; split; [done|constructor]).
  destruct q as [env req|id0|id0|id0|user id0|user id0|env req|env adminId id0];
    simpl.
  - exists r. split; [by apply createReport_keeps_reports|constructor].
  - unfold reportController.acknowledgeReport, findById.
    destruct (isObjectId id0); [|done].
    destruct (reports st !! ObjectId id0) as [r0|] eqn:E0; [|done].
    case_decide as Hs; [done|]. simpl.
    eapply insert_effect; [exact E0| |exact Hr].
    constructor. rewrite Hs. simpl. lia.
  - unfold reportController.resolveReport, findById.
    destruct (isObjectId id0); [|done].
    destruct (reports st !! ObjectId id0) as [r0|] eqn:E0; [|done].
    case_bool_decide as Hs; [|done]. simpl.
    eapply insert_effect; [exact E0| |exact Hr].
    constructor.
    apply elem_of_cons in Hs as [->|Hs]; [simpl; lia|].
    apply list_elem_of_singleton in Hs as ->. simpl. lia.
  - unfold reportController.deleteReport, findById.
    destruct (isObjectId id0); [|done].
    destruct (reports st !! ObjectId id0) as [r0|] eqn:E0; [|done]. simpl.
    eapply insert_effect; [exact E0| |exact Hr].
    constructor. destruct (reportStatus r0); simpl; lia.
  - unfold reportController.upvoteReport, findById.
    destruct (isObjectId id0); [|done]. simpl.
    destruct (reports st !! ObjectId id0) as [r0|] eqn:E0; [|done].
    case_decide as Hs; [done|].
    case_bool_decide as Hin; simpl.
    + eapply insert_effect; [exact E0| |exact Hr]. by constructor.
    + eapply insert_effect; [exact E0| |exact Hr]. by constructor.
  - unfold reportController.updateReportStatusResolve, findById.
    destruct (isObjectId id0); [|done].
    destruct (reports st !! ObjectId id0) as [r0|] eqn:E0; [|done].
    destruct (users st !! userId r0); [|done].
    case_decide; [done|]. case_decide as Hs; [done|].
    rewrite decide_True by (rewrite Hs; done).
    match goal with
    | |- context [foldl ?f ?s0 ?l] =>
        destruct (award_upvoters l s0) as (Hrep & _)
    end.
    simpl in *. rewrite Hrep.
    match goal with
    | |- context [reportController.award ?n ?u ?s0] =>
        destruct (award_spec n u s0) as (Hrep' & _)
    end.
    rewrite Hrep'. simpl.
    eapply insert_effect; [exact E0| |exact Hr].
    constructor. rewrite Hs. simpl. lia.
  - destruct (mlWebhook_state env req st) as (_ & _ & Hrep). simpl in Hrep.
    rewrite Hrep, Hr. simpl. eexists. split; [done|].
    unfold reconcile. destruct (wb_classification req); [|constructor].
    destruct (_ && _); constructor.
  - unfold adminController.updateReportAcknowledge, findByIdAndUpdate.
    destruct (isObjectId id0); [|done].
    destruct (reports st !! ObjectId id0) as [r0|] eqn:E0; [|done].
    assert (∃ r', <[ObjectId id0 := set_acknowledged (now env) adminId r0]> (reports st)
                    !! id = Some r'
                  ∧ effect true r r') as Hgoal.
    { eapply insert_effect; [exact E0| |exact Hr]. by constructor. }
    by destruct (io env).
Qed.

(** Over any run of writing requests a stored report is never removed
    and keeps its owner, coordinates, creation time and description; and a
    report whose counter equals the number of its upvoters, none named
    twice, stays so, hence its counter never goes below 0. *)
Theorem serve_keeps_documents qs : ∀ st id r,
  reports st !! id = Some r →
  ∃ r', reports (serve qs st) !! id = Some r'
        ∧ userId r' = userId r ∧ coordinates r' = coordinates r
        ∧ createdAt r' = createdAt r ∧ description r' = description r
        ∧ (upvotes_consistent r → upvotes_consistent r' ∧ (0 ≤ upvotes r')%Z).
Proof.
  unfold serve.
  induction qs as [|q qs IH]; intros st id r Hr; simpl.
  - exists r. do 5 (split; [done|]). intros Hc. split; [done|].
    destruct Hc as [-> _]. lia.
  - destruct (handle_effect q st id r Hr) as (r1 & Hr1 & He).
    destruct (effect_frame _ _ _ He) as (H1 & H2 & H3 & H4 & H5 & _).
    destruct (IH _ id r1 Hr1) as (r' & Hr' & G1 & G2 & G3 & G4 & G5).
    exists r'. split; [done|]. do 4 (split; [congruence|]).
    intros Hc. apply G5. by apply H5.
Qed.

(** Over any run of requests to the report controller the status of a
    stored report only moves forward in the order SUBMITTED, ACKNOWLEDGED,
    RESOLVED, DELETED: a [RESOLVED] report is never reopened, a [DELETED]
    one stays [DELETED], and the acknowledgement stamps are never written. *)
Theorem report_routes_only_advance qs : ∀ st id r,
  forallb report_route qs = true →
  reports st !! id = Some r →
  ∃ r', reports (serve qs st) !! id = Some r'
        ∧ (status_rank (reportStatus r) ≤ status_rank (reportStatus r'))%nat
        ∧ (reportStatus r = DELETED → reportStatus r' = DELETED)
        ∧ (reportStatus r = RESOLVED → reportStatus r' ∈ [RESOLVED; DELETED])
        ∧ acknowledgedAt r' = acknowledgedAt r
        ∧ acknowledgedBy r' = acknowledgedBy r.
Proof.
  unfold serve.
  assert (∀ st id r r', reports st !! id = Some r' →
            (status_rank (reportStatus r) ≤ status_rank (reportStatus r'))%nat →
            acknowledgedAt r' = acknowledgedAt r →
            acknowledgedBy r' = acknowledgedBy r →
            ∃ r', reports st !! id = Some r'
              ∧ (status_rank (reportStatus r) ≤ status_rank (reportStatus r'))%nat
              ∧ (reportStatus r = DELETED → reportStatus r' = DELETED)
              ∧ (reportStatus r = RESOLVED → reportStatus r' ∈ [RESOLVED; DELETED])
              ∧ acknowledgedAt r' = acknowledgedAt r
              ∧ acknowledgedBy r' = acknowledgedBy r) as Hpack.
  { intros st id r r' Hr' Hle Ha Hb. exists r'. split; [done|].
    split; [done|]. split; [|split; [|done]].
    - intros Hd. rewrite Hd in Hle. destruct (reportStatus r'); simpl in Hle; done || lia.
    - intros Hd. rewrite Hd in Hle.
      destruct (reportStatus r'); simpl in Hle; try lia.
      + apply elem_of_cons. by left.
      + apply elem_of_cons. right. by apply list_elem_of_singleton. }
  induction qs as [|q qs IH]; intros st id r Hq Hr; simpl.
  - by apply (Hpack st id r r).
  - simpl in Hq. apply andb_true_iff in Hq as [Hq Hqs].
    destruct (handle_effect q st id r Hr) as (r1 & Hr1 & He).
    rewrite Hq in He. simpl in He.
    destruct (effect_frame _ _ _ He) as (_ & _ & _ & _ & _ & Hadv).
    destruct (Hadv eq_refl) as (Hle & _ & Hat & Hby).
    destruct (IH _ id r1 Hqs Hr1) as (r' & Hr' & Hle' & _ & _ & Hat' & Hby').
    apply (Hpack _ id r r'); [done|lia|congruence|congruence].
Qed.
End Lifecycle.

Lemma serve_keeps_documents_witness :
  let qs := [UpvoteReport bob report1; UpvoteReport alice report1;
             UpvoteReport bob report1; DeleteReport report1] in
  ∃ r', reports (serve (RT := sampleRuntime) qs (sampleState (pothole SUBMITTED 0 [])))
          !! report1 = Some r'
        ∧ userId r' = alice ∧ upvotes_consistent r' ∧ (0 ≤ upvotes r')%Z.
Proof.
  destruct (serve_keeps_documents (RT := sampleRuntime)
              [UpvoteReport bob report1; UpvoteReport alice report1;
               UpvoteReport bob report1; DeleteReport report1]
              (sampleState (pothole SUBMITTED 0 [])) report1
              (pothole SUBMITTED 0 []))
    as (r' & Hr' & Hu & _ & _ & _ & Hc); [reflexivity|].
  exists r'. split; [exact Hr'|]. split; [exact Hu|].
  apply Hc. split; [reflexivity | constructor].
Defined.

Lemma report_routes_only_advance_witness :
  let qs := [AcknowledgeReport report1; ResolveReport report1_upper;
             UpvoteReport bob report1;
             MlWebhook sampleEnv
               (mkWebhookBody report1 (Some (sampleClassification None)))] in
  ∃ r', reports (serve (RT := sampleRuntime) qs deletedState) !! report1 = Some r'
        ∧ reportStatus r' = DELETED.
Proof.
  destruct (report_routes_only_advance (RT := sampleRuntime)
              [AcknowledgeReport report1; ResolveReport report1_upper;
               UpvoteReport bob report1;
               MlWebhook sampleEnv
                 (mkWebhookBody report1 (Some (sampleClassification None)))]
              deletedState report1 (pothole DELETED 0 []))
    as (r' & Hr' & _ & Hdel & _); [reflexivity | reflexivity |].
  exists r'. split; [exact Hr'|]. apply Hdel. reflexivity.
Defined.

(** ** Reputation over runs of requests *)

Lemma credit_zero_fmap (o : option User) : credit 0 <$> o = o.
Proof. by destruct o. Qed.

Lemma credit_grows k usr :
  (points usr ≤ points (credit k usr))%N
  ∧ (monthlyPoints usr ≤ monthlyPoints (credit k usr))%N
  ∧ name (credit k usr) = name usr
  ∧ (points (credit k usr) - points usr
     = monthlyPoints (credit k usr) - monthlyPoints usr)%N.
Proof.
  unfold credit. case_decide; [repeat split; lia|].
  rewrite addPoints_eq. simpl. repeat split; lia.
Qed.

Section Reputation.
Context {RT : Runtime}.

(** One request credits each user some number of points, which is 0
    unless the request is the owner's resolution of an [ACKNOWLEDGED]
    report. *)
Lemma handle_users q st :
  ∃ k : string → N,
    (∀ u, users (snd (handle q st)) !! u = credit (k u) <$> users st !! u)
    ∧ ((∀ u, k u = 0%N)
       ∨ ∃ user id r, q = UpdateReportStatusResolve user id
                      ∧ reports st !! ObjectId id = Some r
                      ∧ reportStatus r = ACKNOWLEDGED ∧ userId r = user
                      ∧ k = resolution_points r).
Proof.
  assert (∀ st', users st' = users st →
            ∃ k : string → N,
              (∀ u, users st' !! u = credit (k u) <$> users st !! u)
              ∧ ((∀ u, k u = 0%N)
                 ∨ ∃ user id r, q = UpdateReportStatusResolve user id
                      ∧ reports st !! ObjectId id = Some r
                      ∧ reportStatus r = ACKNOWLEDGED ∧ userId r = user
                      ∧ k = resolution_points r)) as Hsame.
  { intros st' E. exists (λ _, 0%N). split; [|by left].
    intros u. by rewrite E, credit_zero_fmap. }
  destruct q as [env req|id0|id0|id0|user id0|user id0|env req|env adminId id0];
    simpl.
  - apply Hsame. unfold reportController.createReport.
    destruct (negb _ || negb _); [done|].
    destruct (_ || _); [done|].
    unfold Report_create.
    destruct (_ && _ && bool_decide _); [|done].
    unfold queueClassificationJob.
    by destruct (mlDisabled env), (redisUp env).
  - apply Hsame. unfold reportController.acknowledgeReport, findById.
    by repeat case_match.
  - apply Hsame. unfold reportController.resolveReport, findById.
    by repeat case_match.
  - apply Hsame. unfold reportController.deleteReport, findById.
    by repeat case_match.
  - apply Hsame. unfold reportController.upvoteReport, findById.
    by repeat case_match.
  - destruct (isObjectId id0) eqn:Hid.
    2: { apply Hsame. unfold reportController.updateReportStatusResolve, findById.
         by rewrite Hid. }
    destruct (reports st !! ObjectId id0) as [r|] eqn:Hr.
    2: { apply Hsame. unfold reportController.updateReportStatusResolve, findById.
         by rewrite Hid, Hr. }
    destruct (users st !! userId r) as [owner|] eqn:Ho.
    2: { apply Hsame. unfold reportController.updateReportStatusResolve, findById.
         by rewrite Hid, Hr, Ho. }
    destruct (decide (userId r = user)) as [<-|Hne].
    2: { apply Hsame. unfold reportController.updateReportStatusResolve, findById.
         rewrite Hid, Hr, Ho. by rewrite decide_True. }
    destruct (decide (reportStatus r = ACKNOWLEDGED)) as [Hs|Hs].
    2: { apply Hsame. unfold reportController.updateReportStatusResolve, findById.
         rewrite Hid, Hr, Ho. rewrite decide_False by auto.
         by rewrite decide_True. }
    destruct (updateReportStatusResolve_awards id0 st r owner Hid Hr Ho Hs)
      as (_ & _ & Hu).
    exists (resolution_points r). split; [exact Hu|].
    right. exists (userId r), id0, r. done.
  - apply Hsame. by destruct (mlWebhook_state env req st) as (Hu & _).
  - apply Hsame. unfold adminController.updateReportAcknowledge, findByIdAndUpdate.
    repeat case_match; simplify_eq; done.
Qed.

(** Only the owner's resolution of an [ACKNOWLEDGED] report writes user
    documents: after any other request the user collection is the same. *)
Theorem points_only_from_owner_resolution q st :
  users (snd (handle q st)) = users st
  ∨ ∃ user id r, q = UpdateReportStatusResolve user id
                 ∧ reports st !! ObjectId id = Some r
                 ∧ reportStatus r = ACKNOWLEDGED ∧ userId r = user
                 ∧ ∀ u, users (snd (handle q st)) !! u
                        = credit (resolution_points r u) <$> users st !! u.
Proof.
  destruct (handle_users q st) as (k & Hk & [H0 | (user & id & r & Hq & Hr & Hs & Ho & E)]).
  - left. apply map_eq. intros u. rewrite Hk, H0. apply credit_zero_fmap.
  - right. exists user, id, r. subst k. done.
Qed.

(** Over any run of writing requests no user is created or removed, and
    nobody's [points] or [monthlyPoints] ever go down; a run credits the
    same amount to both counters. *)
Theorem serve_points_only_grow qs : ∀ st u,
  match users st !! u with
  | Some usr =>
      ∃ usr', users (serve qs st) !! u = Some usr'
              ∧ (points usr ≤ points usr')%N
              ∧ (monthlyPoints usr ≤ monthlyPoints usr')%N
              ∧ (points usr' - points usr
                 = monthlyPoints usr' - monthlyPoints usr)%N
              ∧ name usr' = name usr
  | None => users (serve qs st) !! u = None
  end.
Proof.
  unfold serve.
  induction qs as [|q qs IH]; intros st u; simpl.
  - destruct (users st !! u) as [usr|]; [|done].
    exists usr. repeat split; lia.
  - destruct (handle_users q st) as (k & Hk & _).
    specialize (IH (snd (handle q st)) u). rewrite Hk in IH.
    destruct (users st !! u) as [usr|]; simpl in IH; [|done].
    destruct IH as (usr' & Hu' & H1 & H2 & H3 & H4).
    destruct (credit_grows (k u) usr) as (G1 & G2 & G3 & G4).
    exists usr'. split; [done|]. repeat split; try lia. congruence.
Qed.
End Reputation.

(** ** The owner's resolve route *)

(** The order of the checks on the owner's route: a well-formed id, in
    any spelling, of no report is 404; a report whose owner document is gone is 500; a caller
    who is not the owner is 403 whatever the status; the owner of a
    report that is not [ACKNOWLEDGED] is 400.  None of them changes the
    state. *)
Theorem updateReportStatusResolve_refusals user id st :
  isObjectId id = true →
  let out := reportController.updateReportStatusResolve user id st in
  match reports st !! ObjectId id with
  | None => out = (mkResponse 404 (JError "Report not found"), st)
  | Some r =>
      match users st !! userId r with
      | None => status (fst out) = 500%nat ∧ snd out = st
      | Some _ =>
          (userId r ≠ user →
           out = (mkResponse 403 (JError "You can only resolve your own reports"), st))
          ∧ (userId r = user → reportStatus r ≠ ACKNOWLEDGED →
             status (fst out) = 400%nat ∧ snd out = st)
      end
  end.
Proof.
  intros Hid. simpl. unfold reportController.updateReportStatusResolve.
  rewrite findById_Some by done.
  destruct (reports st !! ObjectId id) as [r|]; [|done].
  destruct (users st !! userId r); [|done].
  split.
  - intros Hne. by rewrite decide_True.
  - intros Heq Hs. rewrite decide_False by auto. by rewrite decide_True.
Qed.

Lemma updateReportStatusResolve_refusals_witness :
  reportController.updateReportStatusResolve bob report1
    (sampleState (pothole SUBMITTED 0 []))
  = (mkResponse 403 (JError "You can only resolve your own reports"),
     sampleState (pothole SUBMITTED 0 []))
  ∧ reportController.updateReportStatusResolve bob report1_upper
      (sampleState (pothole SUBMITTED 0 []))
    = (mkResponse 403 (JError "You can only resolve your own reports"),
       sampleState (pothole SUBMITTED 0 [])).
Proof.
  pose proof (updateReportStatusResolve_refusals bob report1
                (sampleState (pothole SUBMITTED 0 [])) eq_refl) as H.
  pose proof (updateReportStatusResolve_refusals bob report1_upper
                (sampleState (pothole SUBMITTED 0 [])) eq_refl) as H'.
  change (ObjectId report1) with report1 in H.
  change (ObjectId report1_upper) with report1 in H'.
  simpl in H, H'. destruct H as [H _], H' as [H' _].
  split; [apply H | apply H']; discriminate.
Defined.



(** ** Deleted reports *)



(** Deleting is idempotent: a second [deleteReport] of the same id
    answers as the first did and leaves the state the first one left. *)
Theorem deleteReport_idempotent id st :
  let once := reportController.deleteReport id st in
  reportController.deleteReport id (snd once) = (fst once, snd once).
Proof.
  simpl. unfold reportController.deleteReport, findById.
  destruct (isObjectId id) eqn:Hid; simpl; [|done].
  destruct (reports st !! ObjectId id) as [r|] eqn:Hr; simpl.
  - rewrite lookup_insert_eq. unfold respond, save_report, set_reports. simpl.
    by rewrite insert_insert_eq.
  - by rewrite Hr.
Qed.

(** ** What the listings return *)

Lemma status_name_DELETED s : status_name s = "DELETED" ↔ s = DELETED.
Proof. destruct s; simpl; split; done. Qed.

Lemma status_name_inj s s' : status_name s = status_name s' → s = s'.
Proof. destruct s, s'; simpl; done. Qed.

Lemma newest_first_total : Total newest_first.
Proof. intros a b. unfold newest_first. lia. Qed.

Lemma find_NoDup f st : NoDup (find f st).
Proof.
  unfold find. apply NoDup_ListNoDup, List.NoDup_filter, NoDup_ListNoDup.
  apply NoDup_map_to_list.
Qed.

Lemma length_limit {A} n (l : list A) :
  n ≠ 0%Z → (length (limit n l) ≤ Z.to_nat (Z.abs n))%nat.
Proof.
  intros Hn. unfold limit. rewrite decide_False by done.
  rewrite length_take. lia.
Qed.

Section listings_more.
Context {RT : Runtime}.

(** [getUserReports] returns exactly the caller's reports that are not
    [DELETED], each once, the newest first. *)
Theorem getUserReports_exact user st :
  let out := reportController.getUserReports user st in
  status (fst out) = 200%nat ∧ snd out = st
  ∧ (∀ id r, (id, r) ∈ results (fst out)
             ↔ reports st !! id = Some r ∧ userId r = user
               ∧ reportStatus r ≠ DELETED)
  ∧ NoDup (results (fst out))
  ∧ Sorted newest_first (results (fst out)).
Proof.
  simpl. unfold reportController.getUserReports, results. simpl.
  split; [done|]. split; [done|]. split; [|split].
  - intros id r. rewrite elem_of_sorted, elem_of_find. simpl.
    unfold matches. simpl.
    rewrite !andb_true_r, andb_true_iff, negb_true_iff,
      bool_decide_eq_false, bool_decide_eq_true, status_name_DELETED.
    tauto.
  - rewrite merge_sort_Permutation. apply find_NoDup.
  - apply (Sorted_merge_sort newest_first (Total0 := newest_first_total)).
Qed.

(** The filters of [getAllReports] and [getAllReportsForMobile]: every
    listed report is stored; with a [status] parameter it has exactly that
    status, without one it is not [DELETED]; with a [department] (and, on
    the mobile route, a [severity]) parameter it has that value. *)
Theorem all_reports_filters q st d :
  (d ∈ results (fst (reportController.getAllReports q st))
   ∨ d ∈ results (fst (reportController.getAllReportsForMobile q st))) →
  reports st !! fst d = Some (snd d)
  ∧ (∀ s, q_status q = Some s → s ≠ "" → status_name (reportStatus (snd d)) = s)
  ∧ (present (q_status q) = false → reportStatus (snd d) ≠ DELETED)
  ∧ (∀ x, q_department q = Some x → x ≠ "" → department (snd d) = x).
Proof.
  assert (∀ b, d ∈ find (reportController.list_filter q b) st →
    reports st !! fst d = Some (snd d)
    ∧ (∀ s, q_status q = Some s → s ≠ "" → status_name (reportStatus (snd d)) = s)
    ∧ (present (q_status q) = false → reportStatus (snd d) ≠ DELETED)
    ∧ (∀ x, q_department q = Some x → x ≠ "" → department (snd d) = x)) as Hf.
  { intros b [Hst Hm]%elem_of_find. split; [done|].
    unfold matches, reportController.list_filter in Hm. simpl in Hm.
    apply andb_true_iff in Hm as [Hm _]. apply andb_true_iff in Hm as [Hm _].
    apply andb_true_iff in Hm as [Hm _]. apply andb_true_iff in Hm as [Hs Hd].
    split; [|split].
    - intros s E Hne. rewrite E in Hs. simpl in Hs.
      rewrite bool_decide_eq_false_2 in Hs by done. simpl in Hs.
      by apply bool_decide_eq_true in Hs.
    - intros E. rewrite E in Hs. simpl in Hs.
      apply negb_true_iff, bool_decide_eq_false in Hs.
      by rewrite status_name_DELETED in Hs.
    - intros x E Hne. rewrite E in Hd. simpl in Hd.
      rewrite bool_decide_eq_false_2 in Hd by done. simpl in Hd.
      by apply bool_decide_eq_true in Hd. }
  intros [Hd|Hd].
  - unfold reportController.getAllReports in Hd.
    destruct (skip_limit _ _ _) as [l|] eqn:E; simpl in Hd;
      [|by apply elem_of_nil in Hd].
    eapply elem_of_skip_limit in Hd; [|exact E].
    apply elem_of_sorted in Hd. by eapply Hf.
  - unfold reportController.getAllReportsForMobile in Hd.
    destruct (skip_limit _ _ _) as [l|] eqn:E; simpl in Hd;
      [|by apply elem_of_nil in Hd].
    eapply elem_of_skip_limit in Hd; [|exact E].
    apply elem_of_sorted in Hd. by eapply Hf.
Qed.

(** The geospatial listings never return more than their fixed limit, 50
    for the two nearby routes and 100 for the bounding box, and the
    department route lists reports of the requested department only. *)
Theorem geo_listings_bounded st :
  (∀ lat lng radius,
      (length (results (fst (reportController.getNearbyReports lat lng radius st)))
       ≤ 50)%nat)
  ∧ (∀ swLat swLng neLat neLng,
      (length (results (fst (reportController.getReportsInBounds
                               swLat swLng neLat neLng st))) ≤ 100)%nat)
  ∧ (∀ lat lng dept radius,
      let l := results (fst (reportController.getNearbyReportsByDepartment
                               lat lng dept radius st)) in
      (length l ≤ 50)%nat
      ∧ ∀ d, d ∈ l → Some (department (snd d)) = dept).
Proof.
  assert (∀ g dept n msg err, n ≠ 0%Z →
    let l := results (fst
      match reportController.find_geo g dept n st with
      | Return l => respond 200 (JReports msg l) st
      | Throw => respond 500 (JError err) st
      end) in
    (length l ≤ Z.to_nat (Z.abs n))%nat
    ∧ ∀ d, d ∈ l → opt_is dept (department (snd d)) = true) as Hgeo.
  { intros g dept n msg err Hn. simpl. unfold reportController.find_geo.
    destruct (geoEval g) as [p|]; simpl; [|split; [lia|by intros ? ?%elem_of_nil]].
    unfold results. simpl. split; [by apply length_limit|].
    intros d [_ Hm]%elem_of_limit%elem_of_sorted%elem_of_find.
    unfold matches in Hm. simpl in Hm.
    apply andb_true_iff in Hm as [Hm _]. apply andb_true_iff in Hm as [Hm _].
    apply andb_true_iff in Hm as [Hm _]. by apply andb_true_iff in Hm as [_ Hm]. }
  split; [|split].
  - intros lat lng radius. unfold reportController.getNearbyReports.
    destruct (_ || _); [simpl; lia|].
    destruct (_ || _); [simpl; lia|].
    by apply (Hgeo _ None 50%Z).
  - intros swLat swLng neLat neLng. unfold reportController.getReportsInBounds.
    destruct (_ || _); [simpl; lia|].
    by apply (Hgeo _ None 100%Z).
  - intros lat lng dept radius. simpl.
    unfold reportController.getNearbyReportsByDepartment.
    destruct (_ || _) eqn:Ep; [simpl; split; [lia|by intros ? ?%elem_of_nil]|].
    apply orb_false_iff in Ep as [_ Ep%negb_false_iff].
    destruct (Hgeo (Near (reportController.parseFloatParam lng)
                      (reportController.parseFloatParam lat)
                      (reportController.parseInt radius 500)) dept 50%Z
                ("Nearby " ++ default "" dept ++ " reports retrieved successfully")
                "Failed to get nearby reports by department") as [H1 H2]; [done|].
    split; [exact H1|]. intros d Hd. specialize (H2 d Hd).
    destruct dept as [x|]; simpl in H2; [|done].
    apply bool_decide_eq_true in H2. by rewrite H2.
Qed.
End listings_more.

Lemma all_reports_filters_witness :
  (report1, pothole DELETED 0 [])
    ∈ results (fst (reportController.getAllReports (RT := sampleRuntime)
                      (mkListQuery (Some "DELETED") None None None None)
                      deletedState))
  ∧ reports deletedState !! report1 = Some (pothole DELETED 0 []).
Proof.
  assert ((report1, pothole DELETED 0 [])
    ∈ results (fst (reportController.getAllReports (RT := sampleRuntime)
                      (mkListQuery (Some "DELETED") None None None None)
                      deletedState))) as Hin.
  { vm_compute. apply list_elem_of_In. left. reflexivity. }
  split; [exact Hin|].
  destruct (all_reports_filters (RT := sampleRuntime)
              (mkListQuery (Some "DELETED") None None None None) deletedState
              (report1, pothole DELETED 0 [])) as (H & _); [by left|].
  exact H.
Defined.

(** ** Events and the admin acknowledge route *)

(** What [mlWebhook] publishes: without a classification, or with an id
    that is no ObjectId, it answers 500 and changes nothing; otherwise it
    answers 200, and the response and, when [global.io] is set, exactly
    one new [ML_PROCESSED] event, addressed by the id as the request
    spelled it, both carry the report as it is stored after the update
    under the ObjectId the id is cast to ([null] when there is none); the
    queue is never touched. *)
Theorem mlWebhook_publishes env req st :
  let out := reportController.mlWebhook env req st in
  let id := wb_reportId req in
  queue (snd out) = queue st
  ∧ match wb_classification req with
    | Some c =>
        if isObjectId id then
          fst out = mkResponse 200
                      (JWebhook "Webhook received and database updated successfully"
                         (reports (snd out) !! ObjectId id))
          ∧ reports (snd out) !! ObjectId id
            = apply_updateData c <$> reports st !! ObjectId id
          ∧ emitted (snd out)
            = (emitted st ++
               if io env
               then [mkEvent id "ML_PROCESSED" (reports (snd out) !! ObjectId id)
                       "AI analysis complete!"]
               else [])%list
        else out = (mkResponse 500 (JError "Webhook processing failed"), st)
    | None => out = (mkResponse 500 (JError "Webhook processing failed"), st)
    end.
Proof.
  simpl. unfold reportController.mlWebhook, findByIdAndUpdate.
  destruct (wb_classification req) as [c|]; [|done].
  destruct (isObjectId (wb_reportId req)); [|done].
  destruct (reports st !! ObjectId (wb_reportId req)) as [r|] eqn:Hr;
    destruct (io env); simpl; rewrite ?lookup_insert_eq, ?Hr, ?app_nil_r; done.
Qed.

(** The admin acknowledge route: a well-formed id, in any spelling, of no
    report is answered 404 with the state unchanged; on a stored report it
    rewrites only the status and the three acknowledgement fields of that
    report, leaves every other report, the users and the queue alone,
    publishes one [ACKNOWLEDGED] event when [global.io] is set, and a
    repeated call by the same admin at the same time stores the same
    documents. *)
Theorem updateReportAcknowledge_effects env adminId id st :
  isObjectId id = true →
  let out := adminController.updateReportAcknowledge env adminId id st in
  match reports st !! ObjectId id with
  | None => out = (mkResponse 404 (JError "Report not found"), st)
  | Some r =>
      ∃ r', fst out = mkResponse 200 (JReport "Report acknowledged successfully" r')
        ∧ reports (snd out) = <[ObjectId id := r']> (reports st)
        ∧ set_reportStatus (reportStatus r) r'
          = mkReport (title r) (description r) (coordinates r) (address r)
              (image_url r) (voice_url r) (department r) (reportStatus r)
              (severity r) (userId r) (upvotes r) (upvotedBy r) (mlClassified r)
              (mlSeverity r) (mlDepartment r) (mlTitle r) (mlConflicts r)
              (mlConfidence r) true (Some (now env)) (Some adminId) (createdAt r)
        ∧ reportStatus r' = ACKNOWLEDGED
        ∧ users (snd out) = users st ∧ queue (snd out) = queue st
        ∧ emitted (snd out)
          = (emitted st ++
             if io env
             then [mkEvent id "ACKNOWLEDGED" None
                     "Your report has been acknowledged by authorities!"]
             else [])%list
        ∧ reports (snd (adminController.updateReportAcknowledge env adminId id
                          (snd out)))
          = reports (snd out)
  end.
Proof.
  intros Hid. simpl.
  unfold adminController.updateReportAcknowledge, findByIdAndUpdate.
  rewrite Hid. destruct (reports st !! ObjectId id) as [r|] eqn:Hr; [|done].
  exists (set_acknowledged (now env) adminId r).
  destruct (io env); simpl; rewrite lookup_insert_eq; simpl;
    rewrite ?insert_insert_eq, ?app_nil_r; done.
Qed.

Lemma updateReportAcknowledge_effects_witness :
  adminController.updateReportAcknowledge sampleEnv admin1 report1
    (mkState ∅ ∅ [] [])
  = (mkResponse 404 (JError "Report not found"), mkState ∅ ∅ [] [])
  ∧ (let out := adminController.updateReportAcknowledge sampleEnv admin1
                  report1_upper (sampleState (pothole SUBMITTED 2 [bob; alice])) in
     reportStatus <$> reports (snd out) !! report1 = Some ACKNOWLEDGED
     ∧ upvotedBy <$> reports (snd out) !! report1 = Some [bob; alice]
     ∧ acknowledgedBy <$> reports (snd out) !! report1 = Some (Some admin1)
     ∧ length (emitted (snd out)) = 1%nat).
Proof.
  split.
  - exact (updateReportAcknowledge_effects sampleEnv admin1 report1
             (mkState ∅ ∅ [] []) eq_refl).
  - pose proof (updateReportAcknowledge_effects sampleEnv admin1 report1_upper
                  (sampleState (pothole SUBMITTED 2 [bob; alice])) eq_refl) as H.
    change (ObjectId report1_upper) with report1 in H.
    change (reports (sampleState (pothole SUBMITTED 2 [bob; alice])) !! report1)
      with (Some (pothole SUBMITTED 2 [bob; alice])) in H.
    destruct H as (r' & _ & Hrep & Hfields & Hst & _ & _ & Hev & _).
    pose proof (f_equal upvotedBy Hfields) as Hup.
    pose proof (f_equal acknowledgedBy Hfields) as Hby.
    simpl in Hup, Hby.
    cbv zeta. rewrite Hrep, Hev, lookup_insert_eq. simpl.
    rewrite Hst, Hup, Hby. repeat split.
Defined.

Lemma mlWebhook_publishes_witness :
  let req := mkWebhookBody report1_upper (Some (sampleClassification None)) in
  let out := reportController.mlWebhook sampleEnv req
               (sampleState (pothole SUBMITTED 0 [])) in
  status (fst out) = 200%nat
  ∧ severity <$> reports (snd out) !! report1 = Some "HIGH"
  ∧ ev_reportId <$> last (emitted (snd out)) = Some report1_upper.
Proof.
  pose proof (mlWebhook_publishes sampleEnv
                (mkWebhookBody report1_upper (Some (sampleClassification None)))
                (sampleState (pothole SUBMITTED 0 []))) as H.
  cbv zeta in H. destruct H as [_ H].
  change (wb_classification _) with (Some (sampleClassification None)) in H.
  change (isObjectId _) with true in H.
  cbv iota in H. destruct H as (Hresp & Hdoc & Hev).
  change (ObjectId (wb_reportId _)) with report1 in Hdoc, Hev.
  cbv zeta. rewrite Hresp, Hdoc, Hev. repeat split.
Defined.

Lemma resolve_RESOLVED_no_award_witness :
  let st := sampleState (pothole RESOLVED 1 [bob]) in
  snd (reportController.resolveReport report1 st) = st
  ∧ snd (reportController.updateReportStatusResolve alice report1 st) = st.
Proof.
  destruct (resolve_RESOLVED_no_award alice report1
              (sampleState (pothole RESOLVED 1 [bob])) (pothole RESOLVED 1 [bob]))
    as (H1 & H2 & _); [reflexivity | reflexivity |].
  split; [exact H1 | exact H2].
Defined.


Lemma createReport_preserves_witness :
  let st := sampleState (pothole SUBMITTED 0 []) in
  let out := reportController.createReport (RT := sampleRuntime) sampleEnv
               (createAt (JNum (1297 # 100)) (JNum (7759 # 100))) st in
  reports (snd out) !! report1 = Some (pothole SUBMITTED 0 [])
  ∧ users (snd out) = users st.
Proof.
  destruct (createReport_preserves (RT := sampleRuntime) sampleEnv
              (createAt (JNum (1297 # 100)) (JNum (7759 # 100)))
              (sampleState (pothole SUBMITTED 0 [])))
    as (Hu & _ & Hr & _).
  split; [|exact Hu]. apply Hr. reflexivity.
Defined.
